(** * Emotion detection client and Flask front-end: a shallow embedding

    The development follows the two Python modules of the repository:

    - [EmotionDetection/emotion_detection.py], the function
      [emotion_detector], which posts a text to the Watson endpoint and
      normalises the reply into a dictionary of five scores and a
      dominant emotion;
    - [server.py], the Flask view [emotion_detection_view].

    Python values that flow through the code are the results of JSON
    decoding, so the embedding starts with a type of JSON values and the
    Python built-ins the two modules apply to them ([in], [x[k]],
    [dict.get], truthiness, [>] as used by [max]).  Effects (the outbound
    POST, [print]) are recorded in a trace threaded through a small
    state-and-exception monad. *)

From Stdlib Require Import ZArith QArith String List Bool Lia.
From Stdlib Require Import SpecFloat.
Import ListNotations.

Set Warnings "-register-all".

Local Open Scope string_scope.
Local Open Scope Z_scope.

(** ** Python values and built-ins *)

Module Py.

(** Values produced by [json.loads] / [Response.json()].  A Python [float]
    is an IEEE binary64 value, kept in the Standard Library's
    specification format (sign, mantissa, exponent, with zeros, infinities
    and NaN).  A [dict] keeps its items in insertion order; lookup takes
    the first item with the key. *)
Inductive value : Type :=
| VNone
| VBool (b : bool)
| VInt (z : Z)
| VFloat (f : spec_float)
| VStr (s : string)
| VList (l : list value)
| VDict (d : list (string * value)).

(** Exceptions the two modules can raise or let through. *)
Inductive exn : Type :=
| RequestException          (* transport failure inside requests.post *)
| HTTPError                 (* Response.raise_for_status *)
| RequestsJSONDecodeError   (* Response.json on an undecodable body *)
| JSONDecodeError           (* json.loads on a text that is not JSON *)
| ValueError (msg : string)
| TypeError
| AttributeError
| KeyError
| IndexError
| RecursionError.           (* json.loads on a text nested too deeply *)

Inductive result (A : Type) : Type :=
| Ok (a : A)
| Raise (e : exn).
Arguments Ok {A} a.
Arguments Raise {A} e.

(** *** Numbers

    [bool], [int] and [float] compare with each other by exact
    mathematical value; NaN is unordered and unequal to everything.  The
    value of a number is an extended rational. *)
Inductive xreal : Type :=
| XNaN
| XNegInf
| XFin (q : Q)
| XPosInf.

(** [m * 2^e] as a rational. *)
Definition dyadic (m e : Z) : Q :=
  if 0 <=? e then inject_Z (m * 2 ^ e) else Qmake m (Z.to_pos (2 ^ (- e))).

Definition float_value (f : spec_float) : xreal :=
  match f with
  | S754_zero _ => XFin 0
  | S754_infinity true => XNegInf
  | S754_infinity false => XPosInf
  | S754_nan => XNaN
  | S754_finite s m e => XFin (dyadic (if s then Z.neg m else Z.pos m) e)
  end.

Definition number_value (v : value) : option xreal :=
  match v with
  | VBool b => Some (XFin (inject_Z (if b then 1 else 0)))
  | VInt z => Some (XFin (inject_Z z))
  | VFloat f => Some (float_value f)
  | _ => None
  end.

Definition is_number (v : value) : bool :=
  match v with
  | VBool _ | VInt _ | VFloat _ => true
  | _ => false
  end.

(** [a > b] on extended rationals. *)
Definition xgt (a b : xreal) : bool :=
  match a, b with
  | XNaN, _ | _, XNaN => false
  | XPosInf, XPosInf => false
  | XPosInf, _ => true
  | _, XPosInf => false
  | XNegInf, _ => false
  | XFin _, XNegInf => true
  | XFin p, XFin q => match (p ?= q)%Q with Gt => true | _ => false end
  end.

(** [a == b] on extended rationals. *)
Definition xeq (a b : xreal) : bool :=
  match a, b with
  | XNaN, _ | _, XNaN => false
  | XPosInf, XPosInf => true
  | XNegInf, XNegInf => true
  | XFin p, XFin q => Qeq_bool p q
  | _, _ => false
  end.

Definition is_nan (v : value) : bool :=
  match v with
  | VFloat S754_nan => true
  | _ => false
  end.

(** *** Dictionaries *)

Fixpoint lookup (k : string) (d : list (string * value)) : option value :=
  match d with
  | [] => None
  | (k', v) :: d' => if String.eqb k k' then Some v else lookup k d'
  end.

Definition has_key (k : string) (d : list (string * value)) : bool :=
  match lookup k d with Some _ => true | None => false end.

(** *** Equality as used inside containers

    [PyObject_RichCompareBool(v, w, Py_EQ)]: identity first, then [==].
    On decoded JSON the only values for which identity and [==] differ are
    NaNs, and the decoder hands out one shared NaN object, so a NaN is
    equal to a NaN here.  Dictionaries are equal when they have the same
    size and agree on every key. *)
Fixpoint py_eq (v w : value) {struct v} : bool :=
  match v, w with
  | VNone, VNone => true
  | VStr s, VStr t => String.eqb s t
  | VList l, VList m =>
      (fix all2 (l m : list value) {struct l} : bool :=
         match l, m with
         | [], [] => true
         | x :: l', y :: m' => py_eq x y && all2 l' m'
         | _, _ => false
         end) l m
  | VDict d, VDict e =>
      (length d =? length e)%nat &&
      (fix sub (d : list (string * value)) {struct d} : bool :=
         match d with
         | [] => true
         | (k, x) :: d' =>
             match lookup k e with
             | Some y => py_eq x y
             | None => false
             end && sub d'
         end) d
  | VFloat S754_nan, VFloat S754_nan => true
  | (VBool _ | VInt _ | VFloat _), (VBool _ | VInt _ | VFloat _) =>
      match number_value v, number_value w with
      | Some a, Some b => xeq a b
      | _, _ => false
      end
  | _, _ => false
  end.

(** *** Ordering: [v > w]

    Numbers compare by value, strings lexicographically, lists
    lexicographically on the first pair of unequal items (and then by
    length); every other combination raises [TypeError]. *)
Fixpoint py_gt (v w : value) {struct v} : result bool :=
  match v, w with
  | VStr s, VStr t => Ok (String.ltb t s)
  | VList l, VList m =>
      (fix lex (l m : list value) {struct l} : result bool :=
         match l, m with
         | [], _ => Ok false
         | _ :: _, [] => Ok true
         | x :: l', y :: m' => if py_eq x y then lex l' m' else py_gt x y
         end) l m
  | (VBool _ | VInt _ | VFloat _), (VBool _ | VInt _ | VFloat _) =>
      match number_value v, number_value w with
      | Some a, Some b => Ok (xgt a b)
      | _, _ => Raise TypeError
      end
  | _, _ => Raise TypeError
  end.

(** *** Truth value, [bool(v)] *)
Definition py_truthy (v : value) : bool :=
  match v with
  | VNone => false
  | VBool b => b
  | VInt z => negb (z =? 0)
  | VFloat (S754_zero _) => false
  | VFloat _ => true
  | VStr s => negb (String.eqb s "")
  | VList l => match l with [] => false | _ => true end
  | VDict d => match d with [] => false | _ => true end
  end.

(** *** Membership, [needle in v], for a string needle *)
Definition is_substring (needle s : string) : bool :=
  match String.index 0 needle s with Some _ => true | None => false end.

Definition py_contains (needle : string) (v : value) : result bool :=
  match v with
  | VDict d => Ok (has_key needle d)
  | VList l => Ok (existsb (fun x => py_eq x (VStr needle)) l)
  | VStr s => Ok (is_substring needle s)
  | _ => Raise TypeError
  end.

(** *** Subscription: [v[key]] for a string key, and [v[0]] *)
Definition py_getitem (v : value) (key : string) : result value :=
  match v with
  | VDict d => match lookup key d with Some x => Ok x | None => Raise KeyError end
  | _ => Raise TypeError
  end.

Definition py_getitem0 (v : value) : result value :=
  match v with
  | VList (x :: _) => Ok x
  | VList [] => Raise IndexError
  | VStr (String c _) => Ok (VStr (String c ""))
  | VStr "" => Raise IndexError
  | VDict _ => Raise KeyError
  | _ => Raise TypeError
  end.

(** *** [v.get(key, default)] *)
Definition py_get (v : value) (key : string) (default : value) : result value :=
  match v with
  | VDict d => Ok (match lookup key d with Some x => x | None => default end)
  | _ => Raise AttributeError
  end.

(** *** Induction on values *)

Section ValueInduction.

Variable P : value -> Prop.
Hypothesis HNone : P VNone.
Hypothesis HBool : forall b, P (VBool b).
Hypothesis HInt : forall z, P (VInt z).
Hypothesis HFloat : forall f, P (VFloat f).
Hypothesis HStr : forall s, P (VStr s).
Hypothesis HList : forall l, Forall P l -> P (VList l).
Hypothesis HDict : forall d, Forall (fun kv => P (snd kv)) d -> P (VDict d).

(** Induction on values with the hypothesis available for the items of
    a list and the values of a dict. *)
Fixpoint value_nested_ind (v : value) : P v :=
  match v with
  | VNone => HNone
  | VBool b => HBool b
  | VInt z => HInt z
  | VFloat f => HFloat f
  | VStr s => HStr s
  | VList l =>
      HList l
        ((fix items (l : list value) : Forall P l :=
            match l with
            | [] => Forall_nil P
            | x :: l' => Forall_cons x (value_nested_ind x) (items l')
            end) l)
  | VDict d =>
      HDict d
        ((fix entries (d : list (string * value))
            : Forall (fun kv => P (snd kv)) d :=
            match d with
            | [] => Forall_nil _
            | kv :: d' =>
                Forall_cons kv (value_nested_ind (snd kv)) (entries d')
            end) d)
  end.

End ValueInduction.

End Py.

(** ** Exceptions and effects *)

Module Effects.
Import Py.

(** Pure code that may raise. *)
Definition rbind {A B : Type} (c : result A) (k : A -> result B) : result B :=
  match c with
  | Ok a => k a
  | Raise e => Raise e
  end.

(** What the process does to the outside world: the outbound POST of
    [requests.post] and the lines written by [print]. *)
Record request : Type := {
  req_url : string;
  req_headers : list (string * string);
  req_json : value
}.

Inductive event : Type :=
| Post (r : request)
| Print (label : string) (v : value).

Definition trace : Type := list event.

(** Code that may raise and that extends the trace. *)
Definition M (A : Type) : Type := trace -> result A * trace.

Definition ret {A : Type} (a : A) : M A := fun t => (Ok a, t).

Definition raise {A : Type} (e : exn) : M A := fun t => (Raise e, t).

Definition bind {A B : Type} (c : M A) (k : A -> M B) : M B :=
  fun t =>
    match c t with
    | (Ok a, t') => k a t'
    | (Raise e, t') => (Raise e, t')
    end.

Definition lift {A : Type} (r : result A) : M A := fun t => (r, t).

Definition emit (e : event) : M unit := fun t => (Ok tt, (t ++ [e])%list).

End Effects.

Declare Scope result_scope.
Delimit Scope result_scope with result.
Notation "'let?' x ':=' c 'in' k" :=
  (Effects.rbind c (fun x => k))
  (at level 10, x name, c at level 100, k at level 200) : result_scope.

Declare Scope eff_scope.
Delimit Scope eff_scope with eff.
Notation "x <- c ;; k" :=
  (Effects.bind c (fun x => k))
  (at level 100, c at next level, right associativity) : eff_scope.
Notation "c ;; k" :=
  (Effects.bind c (fun _ => k))
  (at level 100, right associativity) : eff_scope.

(** ** [EmotionDetection/emotion_detection.py] *)

Module EmotionDetection.
Import Py Effects.

(** The dictionary [emotion_detector] returns.  The five scores are
    whatever values the reply carried (or Python's [None]); the dominant
    emotion is a string or [None]. *)
Record EmotionResult : Type := {
  anger : value;
  disgust : value;
  fear : value;
  joy : value;
  sadness : value;
  dominant_emotion : option string
}.

(** What [requests.post] hands back: the status code and what
    [Response.json()] yields ([None] when the body is not JSON). *)
Record response : Type := {
  status_code : Z;
  json_body : option value
}.

(** [Response.raise_for_status]: [HTTPError] for 4xx and 5xx. *)
Definition raise_for_status (r : response) : M unit :=
  if (400 <=? status_code r) && (status_code r <? 600)
  then raise HTTPError
  else ret tt.

(** [Response.ok]: [raise_for_status] would not raise. *)
Definition ok (r : response) : bool :=
  negb ((400 <=? status_code r) && (status_code r <? 600)).

Definition response_json (r : response) : M value :=
  match json_body r with
  | Some v => ret v
  | None => raise RequestsJSONDecodeError
  end.

Definition print (label : string) (v : value) : M unit := emit (Print label v).

(** [max(items, key=key)]: the first item is the initial maximum, and a
    later item replaces it only when its key is strictly greater. *)
Fixpoint max_loop (key : string -> value) (maxitem : string) (maxval : value)
    (items : list string) : result string :=
  match items with
  | [] => Ok maxitem
  | item :: items' =>
      let val := key item in
      (let? cmp := py_gt val maxval in
       if cmp then max_loop key item val items'
       else max_loop key maxitem maxval items')%result
  end.

Definition py_max (items : list string) (key : string -> value) : result string :=
  match items with
  | [] => Raise (ValueError "max() arg is an empty sequence")
  | item :: items' => max_loop key item (key item) items'
  end.

(** Iterating a dict yields its keys; [d.get] as a one-argument function
    answers [None] for a missing key. *)
Definition dict_keys (d : list (string * value)) : list string := map fst d.

Definition dict_get (d : list (string * value)) (k : string) : value :=
  match lookup k d with Some v => v | None => VNone end.

Definition url : string :=
  "https://sn-watson-emotion.labs.skills.network/v1/watson.runtime.nlp.v1/NlpService/EmotionPredict".

Definition headers : list (string * string) :=
  [("grpc-metadata-mm-model-id", "emotion_aggregated-workflow_lang_en_stock")].

Definition payload (text_to_analyze : string) : value :=
  VDict [("raw_document", VDict [("text", VStr text_to_analyze)])].

(** The request [emotion_detector] sends for a text. *)
Definition request_for (text_to_analyze : string) : request :=
  {| req_url := url; req_headers := headers; req_json := payload text_to_analyze |}.

(** The result returned for a 400 reply (lines 36-43). *)
Definition none_result : EmotionResult :=
  {| anger := VNone; disgust := VNone; fear := VNone; joy := VNone;
     sadness := VNone; dominant_emotion := None |}.

Section Client.

(** [json.loads] on a string: the decoded value or the exception it
    raises, [JSONDecodeError] for a text that is not JSON, and also a
    plain [ValueError] (an integer beyond the digit limit) or
    [RecursionError] (a text nested too deeply).  The decoder belongs to
    Python's library; the development holds for any such function. *)
Variable json_loads : string -> result value.

(** The remote service as seen through [requests.post]: a reply, or an
    exception raised by the transport. *)
Variable remote : request -> result response.

Definition requests_post (u : string) (h : list (string * string))
    (j : value) : M response :=
  let req := {| req_url := u; req_headers := h; req_json := j |} in
  fun t => (remote req, (t ++ [Post req])%list).

(** [json.loads(x)]: [TypeError] unless [x] is a string. *)
Definition loads (x : value) : result value :=
  match x with
  | VStr s => json_loads s
  | _ => Raise TypeError
  end.

(** Lines 54-66: the emotion-keyed object inside the decoded reply. *)
Definition emotion_results (response_data : value) : result value :=
  (let? has_text := py_contains "text" response_data in
   if has_text then
     match (let? t := py_getitem response_data "text" in loads t) with
     | Raise JSONDecodeError =>
         Raise (ValueError "Failed to decode JSON from 'text' attribute.")
     | r => r
     end
   else
     let? has_predictions := py_contains "emotionPredictions" response_data in
     if has_predictions then
       let? predictions := py_get response_data "emotionPredictions" (VList []) in
       let? usable :=
         (if py_truthy predictions
          then let? first := py_getitem0 predictions in
               py_contains "emotion" first
          else Ok false) in
       if usable then
         let? first := py_getitem0 predictions in
         py_getitem first "emotion"
       else
         Raise (ValueError "Could not extract emotion predictions from the response.")
     else
       Raise (ValueError "Unexpected response format from API."))%result.

(** Lines 68-95: the five scores, the dominant emotion, the result. *)
Definition scored (emotion_results : value) : result EmotionResult :=
  (let? anger_score := py_get emotion_results "anger" (VInt 0) in
   let? disgust_score := py_get emotion_results "disgust" (VInt 0) in
   let? fear_score := py_get emotion_results "fear" (VInt 0) in
   let? joy_score := py_get emotion_results "joy" (VInt 0) in
   let? sadness_score := py_get emotion_results "sadness" (VInt 0) in
   let emotion_scores :=
     [("anger", anger_score);
      ("disgust", disgust_score);
      ("fear", fear_score);
      ("joy", joy_score);
      ("sadness", sadness_score)] in
   let? dominant := py_max (dict_keys emotion_scores) (dict_get emotion_scores) in
   Ok {| anger := anger_score;
         disgust := disgust_score;
         fear := fear_score;
         joy := joy_score;
         sadness := sadness_score;
         dominant_emotion := Some dominant |})%result.

Definition emotion_detector (text_to_analyze : string) : M EmotionResult :=
  (response <- requests_post url headers (payload text_to_analyze) ;;
   if status_code response =? 400 then ret none_result
   else
     raise_for_status response ;;
     response_data <- response_json response ;;
     print "Full API response:" response_data ;;
     emotion_results <- lift (emotion_results response_data) ;;
     lift (scored emotion_results))%eff.

End Client.

End EmotionDetection.

(** ** [server.py] *)

Module Server.
Import Py Effects EmotionDetection.

(** The part of Flask's [request] the view reads. *)
Record flask_request : Type := {
  method : string;
  form : list (string * string)
}.

(** [request.form.get(name)]: the first value submitted under the name,
    or [None]. *)
Fixpoint form_get (name : string) (f : list (string * string)) : option string :=
  match f with
  | [] => None
  | (k, v) :: f' => if String.eqb name k then Some v else form_get name f'
  end.

(** [render_template(name, result=...)], kept as the template name and
    the [result] variable handed to it. *)
Record page : Type := {
  template : string;
  result_var : option string
}.

Definition render_template (name : string) (res : option string) : page :=
  {| template := name; result_var := res |}.

Definition index : page := render_template "index.html" None.

Section View.

Variable json_loads : string -> result value.
Variable remote : request -> result response.

(** [format(v, '')] as applied by an f-string replacement field. *)
Variable py_format : value -> string.

(** Lines 49-54: the sentence shown for a result with a dominant
    emotion. *)
Definition response_string (result : EmotionResult) (dominant : string) : string :=
  "For the given statement, the system response is 'anger': "
    ++ py_format (anger result) ++ ", "
    ++ "'disgust': " ++ py_format (disgust result)
    ++ ", 'fear': " ++ py_format (fear result) ++ ", "
    ++ "'joy': " ++ py_format (joy result)
    ++ " and 'sadness': " ++ py_format (sadness result) ++ ". "
    ++ "The dominant emotion is " ++ dominant ++ ".".

(** [not statement] holds for [None] and for the empty string. *)
Definition emotion_detection_view (request : flask_request) : M page :=
  if String.eqb (method request) "POST" then
    match form_get "statement" (form request) with
    | None | Some "" =>
        ret (render_template "index.html" (Some "Please enter a valid statement."))
    | Some statement =>
        (result <- emotion_detector json_loads remote statement ;;
         match dominant_emotion result with
         | None =>
             ret (render_template "index.html" (Some "Invalid text! Please try again!"))
         | Some dominant =>
             ret (render_template "index.html" (Some (response_string result dominant)))
         end)%eff
    end
  else ret (render_template "index.html" None).

End View.

End Server.

(** ** Vocabulary of the statements *)

Module Vocabulary.
Import Py Effects EmotionDetection.

(** The five emotion keys in the order the source lists them. *)
Definition emotion_keys : list string :=
  ["anger"; "disgust"; "fear"; "joy"; "sadness"].

(** The score a result holds under a key, [result[k]]. *)
Definition items (r : EmotionResult) : list (string * value) :=
  [("anger", anger r); ("disgust", disgust r); ("fear", fear r);
   ("joy", joy r); ("sadness", sadness r)].

Definition score (r : EmotionResult) (k : string) : value :=
  dict_get (items r) k.

(** Python's [v == w] on decoded JSON: a NaN is unequal to everything,
    itself included; otherwise as inside containers. *)
Definition py_eqeq (v w : value) : bool :=
  if is_nan v || is_nan w then false else py_eq v w.




(** The trace after the outbound call for a text. *)
Definition posted (text : string) (t : trace) : trace :=
  (t ++ [Post (request_for text)])%list.

(** The page shown for a given message. *)
Definition message_page (msg : string) : Server.page :=
  Server.render_template "index.html" (Some msg).

(** The field of a JSON object under a name.  A value that is not an
    object has no fields. *)
Definition field (name : string) (v : value) : option value :=
  match v with
  | VDict d => lookup name d
  | _ => None
  end.

Definition no_field (name : string) (v : value) : Prop :=
  field name v = None.

(** The types the service documents for a reply: an object in which
    [emotionPredictions], where there is no [text], is a list whose
    first element, if any, is an object. *)
Definition documented_reply (body : value) : Prop :=
  match body with
  | VDict d =>
      match lookup "text" d, lookup "emotionPredictions" d with
      | Some _, _ => True
      | None, None => True
      | None, Some (VList []) => True
      | None, Some (VList (VDict _ :: _)) => True
      | None, Some _ => False
      end
  | _ => False
  end.

Section Cases.

Variable json_loads : string -> result value.



(** Case 2: an [emotionPredictions] field holding a list that is empty,
    or whose first element has no [emotion] field. *)
Definition predictions_unusable (body : value) : Prop :=
  exists l,
    field "emotionPredictions" body = Some (VList l) /\
    (l = [] \/ exists first rest, l = first :: rest /\ no_field "emotion" first).

(** Case 3: neither field. *)
Definition neither_field (body : value) : Prop :=
  no_field "text" body /\ no_field "emotionPredictions" body.



End Cases.

End Vocabulary.

(** ** Canned replies used to exercise the statements *)

Module Fixtures.
Import Py Effects EmotionDetection Server.

(** 0.5 and 0.9 as binary64 values. *)
Definition half : value := VFloat (S754_finite false 4503599627370496 (-53)).
Definition nine_tenths : value := VFloat (S754_finite false 8106479329266893 (-53)).

(** [json.loads] restricted to the one text the fixtures decode, the
    empty object; every other text is refused as not JSON. *)
Definition loads_empty_object (s : string) : result value :=
  if String.eqb s "{}" then Ok (VDict []) else Raise JSONDecodeError.

(** A service that answers every request with the given status and
    decoded body. *)
Definition canned (status : Z) (body : option value) (_ : request)
    : result response :=
  Ok {| status_code := status; json_body := body |}.

(** Shape B reply with two scores present. *)
Definition body_predictions : value :=
  VDict [("emotionPredictions",
          VList [VDict [("emotion",
                         VDict [("anger", half); ("joy", nine_tenths)])]])].

(** Shape A reply whose nested text is the empty object. *)
Definition body_text : value := VDict [("text", VStr "{}")].


(** Shape B replies around a given emotion-keyed object. *)
Definition predictions_of (emotion : list (string * value)) : value :=
  VDict [("emotionPredictions", VList [VDict [("emotion", VDict emotion)]])].

(** 1.0 as a binary64 value, and NaN. *)
Definition one : value := VFloat (S754_finite false 4503599627370496 (-52)).
Definition nan : value := VFloat S754_nan.

(** A reply whose [text] is a string that is not JSON. *)
Definition body_garbled : value := VDict [("text", VStr "oops")].

Definition reply (status : Z) (body : value) : response :=
  {| status_code := status; json_body := Some body |}.

(** A service that answers the request for one text and fails on every
    other request. *)
Definition only_for (text : string) (resp : response) (req : request)
    : result response :=
  if py_eq (req_json req) (payload text) then Ok resp
  else Raise RequestException.

(** The result computed from [body_predictions]. *)
Definition result_predictions : EmotionResult :=
  {| anger := half; disgust := VInt 0; fear := VInt 0;
     joy := nine_tenths; sadness := VInt 0;
     dominant_emotion := Some "joy" |}.

(** The trace of one complete run on the text "hi". *)
Definition trace_of_run (body : value) : trace :=
  [Post (request_for "hi"); Print "Full API response:" body].




Definition show (_ : value) : string := "?".

Definition post_form (statement : string) : flask_request :=
  {| method := "POST"; form := [("statement", statement)] |}.

End Fixtures.

(** ** [test_emotion_detection.py] *)

Module Tests.
Import Py Effects EmotionDetection.

(** What the unittest runner records for a test method: it passed, an
    assertion failed, or another exception came out of it. *)
Inductive outcome : Type :=
| Passed
| Failed
| Errored (e : exn).

(** [first == second] as [assertEqual] tests it, for the dominant
    emotion of a result against a string. *)
Definition assertEqual (first : option string) (second : string) : bool :=
  match first with
  | Some s => String.eqb s second
  | None => false
  end.

Section TestCase.

Variable json_loads : string -> result value.
Variable remote : request -> result response.

(** The body the five test methods share: call the client on a
    statement and compare [result['dominant_emotion']] with the expected
    emotion. *)
Definition dominant_test (statement expected : string)
    : trace -> outcome * trace :=
  fun t =>
    match emotion_detector json_loads remote statement t with
    | (Ok result, t') =>
        (if assertEqual (dominant_emotion result) expected
         then Passed else Failed, t')
    | (Raise e, t') => (Errored e, t')
    end.

Definition test_joy := dominant_test "I am glad this happened" "joy".

Definition test_anger := dominant_test "I am really mad about this" "anger".

Definition test_disgust :=
  dominant_test "I feel disgusted just hearing about this" "disgust".

Definition test_sadness := dominant_test "I am so sad about this" "sadness".

Definition test_fear :=
  dominant_test "I am really afraid that this will happen" "fear".

(** The methods of [TestEmotionDetection]. *)
Definition test_methods : list (trace -> outcome * trace) :=
  [test_joy; test_anger; test_disgust; test_sadness; test_fear].

End TestCase.

End Tests.

(** ** Vocabulary of the further properties *)

Module Coverage.
Import Py Effects EmotionDetection Server Vocabulary.

Definition is_post (e : event) : bool :=
  match e with Post _ => true | Print _ _ => false end.

(** The value a score takes from an emotion-keyed object: the value
    under the key, or the default 0. *)
Definition default_score (object : list (string * value)) (k : string) : value :=
  match lookup k object with Some v => v | None => VInt 0 end.

(** The result built from an emotion-keyed object and a dominant key. *)
Definition result_of (object : list (string * value)) (dominant : string)
    : EmotionResult :=
  {| anger := default_score object "anger";
     disgust := default_score object "disgust";
     fear := default_score object "fear";
     joy := default_score object "joy";
     sadness := default_score object "sadness";
     dominant_emotion := Some dominant |}.

(** The values [>] accepts fall in three families. *)
Inductive family : Type :=
| Numbers
| Strings
| Lists.

Definition family_of (v : value) : option family :=
  match v with
  | VBool _ | VInt _ | VFloat _ => Some Numbers
  | VStr _ => Some Strings
  | VList _ => Some Lists
  | VNone | VDict _ => None
  end.

(** The exceptions a decoded reply can lead to. *)
Definition from_reply (e : exn) : bool :=
  match e with
  | ValueError _ | TypeError | AttributeError | KeyError => true
  | _ => false
  end.

(** The three messages of lines 58, 64 and 66. *)
Definition msg_decode : string :=
  "Failed to decode JSON from 'text' attribute.".

Definition msg_predictions : string :=
  "Could not extract emotion predictions from the response.".

Definition msg_format : string := "Unexpected response format from API.".

(** More canned data.  [joyful_text] is the JSON text
    [{"joy": 0.9, "anger": 0.5}]. *)
Definition quote : string := String (Ascii.ascii_of_nat 34) "".

Definition joyful_text : string :=
  "{" ++ quote ++ "joy" ++ quote ++ ": 0.9, "
      ++ quote ++ "anger" ++ quote ++ ": 0.5}".

(** [json.loads] restricted to three texts: the empty object, the empty
    list and [joyful_text]. *)
Definition loads_object (s : string) : result value :=
  if String.eqb s "{}" then Ok (VDict [])
  else if String.eqb s joyful_text
       then Ok (VDict [("joy", Fixtures.nine_tenths); ("anger", Fixtures.half)])
       else if String.eqb s "[]" then Ok (VList [])
            else Raise JSONDecodeError.

Definition joyful : list (string * value) :=
  [("joy", Fixtures.nine_tenths); ("anger", Fixtures.half)].

(** Shape B reply with a second prediction behind the first. *)
Definition body_two_predictions : value :=
  VDict [("emotionPredictions",
          VList [VDict [("emotion", VDict joyful)];
                 VDict [("emotion", VDict [("sadness", Fixtures.one)])]])].

(** Shape A replies: one whose text decodes to a list, one whose text
    is [joyful_text], beside an [emotionPredictions] that is ignored. *)
Definition body_text_list : value := VDict [("text", VStr "[]")].

Definition body_text_joyful : value :=
  VDict [("emotionPredictions", VList []); ("text", VStr joyful_text)].

(** A reply whose predictions are an object, not a list. *)
Definition body_predictions_object : value :=
  VDict [("emotionPredictions", VDict [("emotion", VDict joyful)])].

(** The emotion-keyed object of [Fixtures.body_predictions]. *)
Definition predicted : list (string * value) :=
  [("anger", Fixtures.half); ("joy", Fixtures.nine_tenths)].

(** The scores of [joyful] in another order, beside a key that is not
    one of the five. *)
Definition joyful_and_more : list (string * value) :=
  [("anger", Fixtures.half); ("surprise", Fixtures.one);
   ("joy", Fixtures.nine_tenths)].

(** A reply whose first score is NaN. *)
Definition nan_first : list (string * value) :=
  [("anger", Fixtures.nan); ("joy", Fixtures.nine_tenths)].

End Coverage.

(** ** Properties *)

Import Py Effects EmotionDetection Server Vocabulary.

Section RunEquations.

Variable json_loads : string -> result value.
Variable remote : request -> result response.

(** [emotion_detector] step by step: one POST, then the status checks,
    the decoding and the two pure stages. *)
Lemma emotion_detector_run (text : string) (t : trace) :
  emotion_detector json_loads remote text t =
  match remote (request_for text) with
  | Raise e => (Raise e, posted text t)
  | Ok resp =>
      if status_code resp =? 400 then (Ok none_result, posted text t)
      else if ok resp then
        match json_body resp with
        | None => (Raise RequestsJSONDecodeError, posted text t)
        | Some body =>
            (rbind (emotion_results json_loads body) scored,
             (posted text t ++ [Print "Full API response:" body])%list)
        end
      else (Raise HTTPError, posted text t)
  end.
Proof.
  unfold emotion_detector, bind, requests_post, request_for, posted.
  destruct (remote _) as [resp | e]; [ | reflexivity ].
  destruct (status_code resp =? 400); [ reflexivity | ].
  unfold raise_for_status, ok, raise, ret.
  destruct ((400 <=? status_code resp) && (status_code resp <? 600));
    cbn [negb]; [ reflexivity | ].
  unfold response_json, raise, ret.
  destruct (json_body resp) as [body | ]; [ | reflexivity ].
  unfold print, emit, lift, rbind.
  destruct (emotion_results json_loads body); reflexivity.
Qed.

End RunEquations.

(** *** The status checks and the front-end branches *)

Section StatusAndView.

Variable json_loads : string -> result value.
Variable remote : request -> result response.
Variable py_format : value -> string.

Local Abbreviation detector := (emotion_detector json_loads remote).
Local Abbreviation view := (emotion_detection_view json_loads remote py_format).

(** The view on a POST whose statement is a non-empty string: it runs
    the client on that statement and renders from its outcome. *)
Lemma view_forwards (req : flask_request) (s : string) (t : trace) :
  method req = "POST" ->
  form_get "statement" (form req) = Some s ->
  s <> "" ->
  view req t =
  match detector s t with
  | (Ok r, t') =>
      (Ok (message_page
             match dominant_emotion r with
             | None => "Invalid text! Please try again!"
             | Some d => response_string py_format r d
             end), t')
  | (Raise e, t') => (Raise e, t')
  end.
Proof.
  intros Hm Hf Hs. unfold emotion_detection_view.
  rewrite Hm, Hf. cbn [String.eqb Ascii.eqb Bool.eqb].
  destruct s as [ | c s' ]; [ congruence | ].
  unfold bind.
  destruct (emotion_detector json_loads remote (String c s') t) as [[r | e] t'];
    [ | reflexivity ].
  destruct (dominant_emotion r); reflexivity.
Qed.



(** The view on a POST without a usable statement. *)
Lemma view_rejects_blank (req : flask_request) (t : trace) :
  method req = "POST" ->
  form_get "statement" (form req) = None \/
  form_get "statement" (form req) = Some "" ->
  view req t = (Ok (message_page "Please enter a valid statement."), t).
Proof.
  intros Hm Hf. unfold emotion_detection_view.
  rewrite Hm. cbn [String.eqb Ascii.eqb Bool.eqb].
  destruct Hf as [Hf | Hf]; rewrite Hf; reflexivity.
Qed.

(** C6. On a POST whose [statement] field is absent or the empty string,
    the view renders "Please enter a valid statement." and leaves the
    trace as it was: no request goes out. *)
Theorem blank_statement_is_rejected (req : flask_request) (t : trace) :
  method req = "POST" ->
  form_get "statement" (form req) = None \/
  form_get "statement" (form req) = Some "" ->
  view req t = (Ok (message_page "Please enter a valid statement."), t).
Proof. exact (view_rejects_blank req t). Qed.

(** C10. On a POST, the "Please enter a valid statement." page is shown
    exactly when the field is absent or the empty string; any other
    statement, one made only of spaces included, is handed to the
    client, whose request for that statement is the next event of the
    trace. *)
Theorem nonempty_statement_reaches_client (req : flask_request) (t : trace) :
  method req = "POST" ->
  (fst (view req t) = Ok (message_page "Please enter a valid statement.") <->
   form_get "statement" (form req) = None \/
   form_get "statement" (form req) = Some "") /\
  (forall s,
      form_get "statement" (form req) = Some s ->
      s <> "" ->
      snd (view req t) = snd (detector s t) /\
      exists rest,
        snd (view req t) = (t ++ Post (request_for s) :: rest)%list).
Proof.
  intros Hm.
  assert (Hfwd : forall s,
             form_get "statement" (form req) = Some s -> s <> "" ->
             snd (view req t) = snd (detector s t) /\
             fst (view req t) <> Ok (message_page "Please enter a valid statement.")).
  { intros s Hf Hs. rewrite (view_forwards req s t Hm Hf Hs).
    destruct (detector s t) as [[r | e] t'] eqn:Hd; cbn [fst snd].
    - split; [ reflexivity | ].
      destruct (dominant_emotion r); unfold message_page, render_template;
        cbn; discriminate.
    - split; [ reflexivity | discriminate ]. }
  split.
  - split.
    + intros Hpage.
      destruct (form_get "statement" (form req)) as [s | ] eqn:Hf; [ | now left ].
      destruct (string_dec s "") as [-> | Hs]; [ now right | ].
      exfalso. exact (proj2 (Hfwd s eq_refl Hs) Hpage).
    + intros Hf. now rewrite (view_rejects_blank req t Hm Hf).
  - intros s Hf Hs. destruct (Hfwd s Hf Hs) as [Hsnd _].
    split; [ exact Hsnd | ].
    rewrite Hsnd. rewrite emotion_detector_run.
    unfold posted.
    destruct (remote (request_for s)) as [resp | e]; cbn [snd].
    + destruct (status_code resp =? 400); cbn [snd].
      * exists []. reflexivity.
      * destruct (ok resp); cbn [snd]; [ | exists []; reflexivity ].
        destruct (json_body resp) as [body | ]; cbn [snd].
        -- exists [Print "Full API response:" body].
           now rewrite <- app_assoc.
        -- exists []. reflexivity.
    + exists []. reflexivity.
Qed.

End StatusAndView.

(** *** Which exceptions the built-ins raise *)

Lemma py_gt_raises_TypeError (v w : value) (e : exn) :
  py_gt v w = Raise e -> e = TypeError.
Proof.
  revert w e. induction v as [ | b | z | f | s | l IH | d _ ] using value_nested_ind;
    intros w e; destruct w as [ | b' | z' | f' | s' | l' | d' ]; cbn;
    try congruence.
  revert l'. induction IH as [ | x l Hx _ IHl ]; intros l'; [ discriminate | ].
  destruct l' as [ | y l' ]; [ discriminate | ].
  destruct (py_eq x y); [ apply IHl | apply Hx ].
Qed.

Lemma max_loop_raises_TypeError (key : string -> value) (items : list string)
    (m : string) (mv : value) (e : exn) :
  max_loop key m mv items = Raise e -> e = TypeError.
Proof.
  revert m mv. induction items as [ | item items IH ]; intros m mv; cbn;
    [ discriminate | ].
  destruct (py_gt (key item) mv) as [[ | ] | e'] eqn:Hgt; cbn.
  - apply IH.
  - apply IH.
  - intros [= <-]. exact (py_gt_raises_TypeError _ _ _ Hgt).
Qed.

(** [max] answers one of the items it was given. *)
Lemma max_loop_In (key : string -> value) (items : list string)
    (m : string) (mv : value) (d : string) :
  max_loop key m mv items = Ok d -> d = m \/ In d items.
Proof.
  revert m mv. induction items as [ | item items IH ]; intros m mv; cbn.
  - intros [= ->]. now left.
  - destruct (py_gt (key item) mv) as [[ | ] | e']; cbn; [ | | discriminate ];
      intros H; apply IH in H; destruct H as [-> | H]; cbn; auto.
Qed.

(** *** The scoring stage *)

(** A result of the scoring stage comes from a dict, holds under each key
    the dict's value or the default 0, and names the key [max] picked. *)
Lemma scored_Ok (er : value) (r : EmotionResult) :
  scored er = Ok r ->
  exists dd d,
    er = VDict dd /\
    (forall k, In k emotion_keys ->
               score r k = match lookup k dd with Some v => v | None => VInt 0 end) /\
    py_max emotion_keys (score r) = Ok d /\
    dominant_emotion r = Some d.
Proof.
  destruct er as [ | | | | | | dd ]; try discriminate.
  unfold scored. cbn [py_get rbind].
  match goal with
  | |- context [py_max ?ks ?f] => destruct (py_max ks f) as [d | e] eqn:Hmax
  end; cbn [rbind]; try discriminate.
  intros [= <-]. exists dd, d.
  split; [ reflexivity | ]. split; [ | split; [ exact Hmax | reflexivity ] ].
  intros k Hk. cbn in Hk.
  repeat (destruct Hk as [<- | Hk]; [ reflexivity | ]). contradiction.
Qed.

Lemma scored_raises (er : value) (e : exn) :
  scored er = Raise e -> e = TypeError \/ e = AttributeError.
Proof.
  destruct er as [ | | | | | | dd ]; try (cbn; intros [= <-]; now right).
  unfold scored. cbn [py_get rbind].
  match goal with
  | |- context [py_max ?ks ?f] => destruct (py_max ks f) as [d | e'] eqn:Hmax
  end; cbn [rbind]; try discriminate.
  intros [= <-]. left.
  exact (max_loop_raises_TypeError _ _ _ _ _ Hmax).
Qed.

(** *** Successful runs of the client *)

Section ClientProperties.

Variable json_loads : string -> result value.
Variable remote : request -> result response.

Local Abbreviation detector := (emotion_detector json_loads remote).

(** A run that returns a result for a reply other than 400 went through
    both stages. *)
Lemma detector_Ok (text : string) (t t' : trace) (resp : response)
    (r : EmotionResult) :
  remote (request_for text) = Ok resp ->
  status_code resp <> 400 ->
  detector text t = (Ok r, t') ->
  ok resp = true /\
  exists body er,
    json_body resp = Some body /\
    emotion_results json_loads body = Ok er /\
    scored er = Ok r.
Proof.
  intros Hr Hs. rewrite emotion_detector_run, Hr.
  destruct (Z.eqb_spec (status_code resp) 400); [ contradiction | ].
  destruct (ok resp); [ | discriminate ].
  destruct (json_body resp) as [body | ]; [ | discriminate ].
  destruct (emotion_results json_loads body) as [er | e] eqn:He;
    cbn [rbind]; [ | discriminate ].
  intros [= Hsc _]. split; [ reflexivity | ]. now exists body, er.
Qed.

(** What a run returns when the reply is usable. *)
Lemma detector_usable (text : string) (t : trace) (resp : response)
    (body er : value) :
  remote (request_for text) = Ok resp ->
  ok resp = true ->
  json_body resp = Some body ->
  emotion_results json_loads body = Ok er ->
  fst (detector text t) = scored er.
Proof.
  intros Hr Hok Hb He. rewrite emotion_detector_run, Hr.
  destruct (Z.eqb_spec (status_code resp) 400) as [H400 | _].
  - unfold ok in Hok. rewrite H400 in Hok. discriminate.
  - rewrite Hok, Hb, He. reflexivity.
Qed.

(** C4. On a successful return for a reply other than 400, the reply
    held an emotion-keyed object, and each of the five returned scores is
    that object's value under the key, or 0 when the object has no such
    key. *)
Theorem scores_are_values_or_zero (text : string) (t t' : trace)
    (resp : response) (r : EmotionResult) :
  remote (request_for text) = Ok resp ->
  status_code resp <> 400 ->
  detector text t = (Ok r, t') ->
  exists body object,
    json_body resp = Some body /\
    emotion_results json_loads body = Ok (VDict object) /\
    forall k, In k emotion_keys ->
              score r k = match lookup k object with
                          | Some v => v
                          | None => VInt 0
                          end.
Proof.
  intros Hr Hs Hrun.
  destruct (detector_Ok text t t' resp r Hr Hs Hrun)
    as (_ & body & er & Hb & He & Hsc).
  destruct (scored_Ok er r Hsc) as (dd & d & -> & Hscores & _ & _).
  now exists body, dd.
Qed.

(** C8. For a reply other than 400: when the emotion-keyed object has
    none of the five keys the run succeeds with five scores 0 and
    dominant emotion "anger"; and whenever a run succeeds, its dominant
    emotion is one of the five keys, never [None]. *)
Theorem dominant_defaults_to_anger (text : string) (t : trace)
    (resp : response) :
  remote (request_for text) = Ok resp ->
  status_code resp <> 400 ->
  (forall body object,
      ok resp = true ->
      json_body resp = Some body ->
      emotion_results json_loads body = Ok (VDict object) ->
      (forall k, In k emotion_keys -> lookup k object = None) ->
      fst (detector text t) =
      Ok {| anger := VInt 0; disgust := VInt 0; fear := VInt 0;
            joy := VInt 0; sadness := VInt 0;
            dominant_emotion := Some "anger" |}) /\
  (forall r t',
      detector text t = (Ok r, t') ->
      exists d, dominant_emotion r = Some d /\ In d emotion_keys).
Proof.
  intros Hr Hs. split.
  - intros body object Hok Hb He Hnone.
    rewrite (detector_usable text t resp body (VDict object) Hr Hok Hb He).
    unfold scored. cbn [py_get rbind].
    rewrite !Hnone by (cbn; tauto). reflexivity.
  - intros r t' Hrun.
    destruct (detector_Ok text t t' resp r Hr Hs Hrun)
      as (_ & body & er & _ & _ & Hsc).
    destruct (scored_Ok er r Hsc) as (dd & d & _ & _ & Hmax & Hd).
    exists d. split; [ exact Hd | ].
    apply max_loop_In in Hmax. destruct Hmax as [-> | Hin]; cbn; tauto.
Qed.

End ClientProperties.

(** *** What the result depends on *)

Section Dependence.

Variable json_loads : string -> result value.

(** A reply that has a [text] field is read through that field alone. *)
Lemma emotion_results_text_only (d : list (string * value)) (v : value) :
  lookup "text" d = Some v ->
  emotion_results json_loads (VDict d) =
  emotion_results json_loads (VDict [("text", v)]).
Proof.
  intros Hv. unfold emotion_results, py_contains, has_key, py_getitem.
  rewrite Hv. reflexivity.
Qed.

(** C9. When the decoded reply of a success status has both a [text]
    field and an [emotionPredictions] field, the outcome is read off the
    [text] field: a string is decoded and the decoded value scored, a
    [JSONDecodeError] becomes the [ValueError] of line 58, anything else
    the decoder raises is passed on, and a [text] that is not a string
    raises [TypeError].  The outcome is the one of a reply made of the
    [text] field alone; [emotionPredictions] plays no part. *)
Theorem text_field_takes_priority (remote : request -> result response)
    (text : string) (t : trace) (resp : response)
    (d : list (string * value)) (v p : value) :
  remote (request_for text) = Ok resp ->
  ok resp = true ->
  json_body resp = Some (VDict d) ->
  lookup "text" d = Some v ->
  lookup "emotionPredictions" d = Some p ->
  fst (emotion_detector json_loads remote text t) =
  match v with
  | VStr s =>
      match json_loads s with
      | Ok decoded => scored decoded
      | Raise JSONDecodeError =>
          Raise (ValueError "Failed to decode JSON from 'text' attribute.")
      | Raise e => Raise e
      end
  | _ => Raise TypeError
  end /\
  fst (emotion_detector json_loads remote text t) =
  fst (emotion_detector json_loads
         (fun _ => Ok {| status_code := status_code resp;
                         json_body := Some (VDict [("text", v)]) |})
         text t).
Proof.
  intros Hr Hok Hb Hv _. split.
  - rewrite emotion_detector_run, Hr.
    destruct (Z.eqb_spec (status_code resp) 400) as [H400 | _].
    { unfold ok in Hok. rewrite H400 in Hok. discriminate. }
    rewrite Hok, Hb. cbn [fst].
    unfold emotion_results, py_contains, has_key, py_getitem.
    rewrite Hv. cbn [rbind].
    destruct v as [ | | | | s | | ]; cbn [loads rbind]; try reflexivity.
    destruct (json_loads s) as [decoded | e]; cbn [rbind]; [ reflexivity | ].
    destruct e; reflexivity.
  - rewrite !emotion_detector_run, Hr.
    unfold ok. cbn [status_code json_body]. rewrite Hb.
    destruct (status_code resp =? 400); [ reflexivity | ].
    destruct (negb _); [ | reflexivity ].
    cbn [fst]. now rewrite (emotion_results_text_only d v Hv).
Qed.

End Dependence.

(** *** When the reply is reported as malformed *)

Section Malformed.

Variable json_loads : string -> result value.
Variable remote : request -> result response.

(** The exceptions of the built-ins the extraction stage calls. *)
Lemma py_contains_raises (name : string) (v : value) (e : exn) :
  py_contains name v = Raise e -> e = TypeError.
Proof. destruct v; cbn; congruence. Qed.

Lemma py_getitem_raises (v : value) (key : string) (e : exn) :
  py_getitem v key = Raise e -> e = KeyError \/ e = TypeError.
Proof.
  destruct v as [ | | | | | | d ]; cbn; try (right; congruence).
  destruct (lookup key d); [ discriminate | left; congruence ].
Qed.

Lemma py_getitem0_raises (v : value) (e : exn) :
  py_getitem0 v = Raise e -> e = IndexError \/ e = KeyError \/ e = TypeError.
Proof.
  destruct v as [ | | | | s | l | d ]; cbn; try (right; right; congruence).
  - destruct s; [ left; congruence | discriminate ].
  - destruct l; [ left; congruence | discriminate ].
  - right; left; congruence.
Qed.

Lemma py_get_raises (v : value) (key : string) (default : value) (e : exn) :
  py_get v key default = Raise e -> e = AttributeError.
Proof. destruct v; cbn; congruence. Qed.


(** The extraction stage on an object, field by field. *)
Lemma emotion_results_text (d : list (string * value)) (v : value) :
  lookup "text" d = Some v ->
  emotion_results json_loads (VDict d) =
  match loads json_loads v with
  | Raise JSONDecodeError =>
      Raise (ValueError "Failed to decode JSON from 'text' attribute.")
  | r => r
  end.
Proof.
  intros Ht. unfold emotion_results, py_contains, has_key, py_getitem.
  now rewrite Ht.
Qed.

Lemma emotion_results_neither (d : list (string * value)) :
  lookup "text" d = None ->
  lookup "emotionPredictions" d = None ->
  emotion_results json_loads (VDict d) =
  Raise (ValueError "Unexpected response format from API.").
Proof.
  intros Ht Hp. unfold emotion_results, py_contains, has_key.
  now rewrite Ht, Hp.
Qed.

Lemma emotion_results_no_predictions (d : list (string * value)) :
  lookup "text" d = None ->
  lookup "emotionPredictions" d = Some (VList []) ->
  emotion_results json_loads (VDict d) =
  Raise (ValueError "Could not extract emotion predictions from the response.").
Proof.
  intros Ht Hp. unfold emotion_results, py_contains, has_key, py_get.
  now rewrite Ht, Hp.
Qed.

Lemma emotion_results_first_prediction (d first : list (string * value))
    (rest : list value) :
  lookup "text" d = None ->
  lookup "emotionPredictions" d = Some (VList (VDict first :: rest)) ->
  emotion_results json_loads (VDict d) =
  match lookup "emotion" first with
  | Some x => Ok x
  | None =>
      Raise (ValueError "Could not extract emotion predictions from the response.")
  end.
Proof.
  intros Ht Hp. unfold emotion_results, py_contains, has_key, py_get.
  rewrite Ht, Hp. cbn [rbind py_truthy py_getitem0 py_contains has_key].
  destruct (lookup "emotion" first) as [x | ] eqn:He; cbn [rbind py_getitem];
    [ now rewrite He | reflexivity ].
Qed.


End Malformed.

Section MalformedReplies.

Variable json_loads : string -> result value.
Variable remote : request -> result response.


End MalformedReplies.

(** *** Order of the numbers *)

Lemma xgt_fin (p q : Q) : xgt (XFin p) (XFin q) = true <-> (q < p)%Q.
Proof.
  cbn. change (q < p)%Q with (p > q)%Q. rewrite (Qgt_alt p q).
  destruct (p ?= q)%Q; split; congruence.
Qed.

Lemma xgt_irrefl (a : xreal) : xgt a a = false.
Proof.
  destruct a as [ | | q | ]; try reflexivity.
  destruct (xgt (XFin q) (XFin q)) eqn:H; [ | reflexivity ].
  apply xgt_fin in H. now apply Qlt_irrefl in H.
Qed.

Lemma xgt_trans (a b c : xreal) :
  xgt a b = true -> xgt b c = true -> xgt a c = true.
Proof.
  destruct a as [ | | p | ], b as [ | | q | ], c as [ | | r | ];
    try discriminate; try reflexivity.
  rewrite !xgt_fin. intros H1 H2. exact (Qlt_trans _ _ _ H2 H1).
Qed.

Lemma xeq_xgt (a b c : xreal) :
  xeq a b = true -> xgt b c = true -> xgt a c = true.
Proof.
  destruct a as [ | | p | ], b as [ | | q | ], c as [ | | r | ];
    try discriminate; try reflexivity.
  cbn [xeq]. rewrite Qeq_bool_iff, !xgt_fin. intros H1 H2. now rewrite H1.
Qed.

(** On numbers, [>] and [==] are those of the values. *)
Lemma number_has_value (v : value) :
  is_number v = true -> exists a, number_value v = Some a.
Proof. destruct v; try discriminate; intros _; now eexists. Qed.

Lemma py_gt_numbers (v w : value) (a b : xreal) :
  number_value v = Some a -> number_value w = Some b ->
  py_gt v w = Ok (xgt a b).
Proof.
  destruct v, w; cbn [number_value]; try discriminate;
    intros [= <-] [= <-]; reflexivity.
Qed.

Lemma py_eqeq_numbers (v w : value) (a b : xreal) :
  number_value v = Some a -> number_value w = Some b ->
  py_eqeq v w = xeq a b.
Proof.
  destruct v as [ | | | f | | | ], w as [ | | | f' | | | ];
    cbn [number_value]; try discriminate; intros [= <-] [= <-];
    try reflexivity.
  - destruct f' as [ | [ | ] | | ]; reflexivity.
  - destruct f' as [ | [ | ] | | ]; reflexivity.
  - destruct f as [ | [ | ] | | ]; reflexivity.
  - destruct f as [ | [ | ] | | ]; reflexivity.
  - destruct f as [ | [ | ] | | ], f' as [ | [ | ] | | ]; reflexivity.
Qed.

Lemma py_gt_irrefl (v : value) :
  is_number v = true -> py_gt v v = Ok false.
Proof.
  intros Hv. destruct (number_has_value v Hv) as [a Ha].
  now rewrite (py_gt_numbers v v a a Ha Ha), xgt_irrefl.
Qed.

(** A number not above [m] is neither above nor equal to a number that
    is above [m]. *)
Lemma below_new_maximum (k x m : value) :
  is_number k = true -> is_number x = true -> is_number m = true ->
  py_gt x m = Ok true ->
  py_gt k m = Ok false ->
  py_gt k x = Ok false /\ py_eqeq k x = false.
Proof.
  intros Hk Hx Hm.
  destruct (number_has_value k Hk) as [a Ha].
  destruct (number_has_value x Hx) as [b Hb].
  destruct (number_has_value m Hm) as [c Hc].
  rewrite (py_gt_numbers x m b c Hb Hc), (py_gt_numbers k m a c Ha Hc),
    (py_gt_numbers k x a b Ha Hb), (py_eqeq_numbers k x a b Ha Hb).
  intros [= Hxm] [= Hkm]. split.
  - destruct (xgt a b) eqn:Hab; [ | reflexivity ].
    now rewrite (xgt_trans a b c Hab Hxm) in Hkm.
  - destruct (xeq a b) eqn:Hab; [ | reflexivity ].
    now rewrite (xeq_xgt a b c Hab Hxm) in Hkm.
Qed.

(** *** [max] picks the first maximum *)

Section FirstMaximum.

Variable key : string -> value.

(** The loop of [max], started at [m] with [p1] and [p2] already seen
    before and after it, ends on an item that no item exceeds and that no
    earlier item equals. *)
Lemma max_loop_first_maximum (rest p1 p2 : list string) (m : string) :
  (forall k, In k (p1 ++ m :: p2 ++ rest) -> is_number (key k) = true) ->
  (forall k, In k p1 ->
             py_gt (key k) (key m) = Ok false /\ py_eqeq (key k) (key m) = false) ->
  (forall k, In k p2 -> py_gt (key k) (key m) = Ok false) ->
  exists d q1 q2,
    max_loop key m (key m) rest = Ok d /\
    (p1 ++ m :: p2 ++ rest = q1 ++ d :: q2)%list /\
    (forall k, In k q1 ->
               py_gt (key k) (key d) = Ok false /\ py_eqeq (key k) (key d) = false) /\
    (forall k, In k q2 -> py_gt (key k) (key d) = Ok false).
Proof.
  revert p1 p2 m. induction rest as [ | x rest IH ]; intros p1 p2 m Hnum H1 H2.
  - exists m, p1, p2. rewrite app_nil_r. cbn [max_loop]. auto.
  - assert (Hm : is_number (key m) = true)
      by (apply Hnum; rewrite in_app_iff; cbn; tauto).
    assert (Hx : is_number (key x) = true)
      by (apply Hnum; rewrite in_app_iff; cbn; rewrite in_app_iff; cbn; tauto).
    destruct (number_has_value _ Hm) as [c Hc].
    destruct (number_has_value _ Hx) as [b Hb].
    cbn [max_loop]. rewrite (py_gt_numbers _ _ b c Hb Hc). cbn [rbind].
    destruct (xgt b c) eqn:Hgt.
    + (* [x] becomes the maximum *)
      destruct (IH (p1 ++ m :: p2)%list [] x) as (d & q1 & q2 & Hd & Hsplit & Hq).
      * intros k Hk. apply Hnum. cbn [app] in Hk.
        rewrite <- app_assoc in Hk. exact Hk.
      * intros k Hk.
        apply (below_new_maximum (key k) (key x) (key m)); trivial.
        -- apply Hnum. rewrite in_app_iff in Hk |- *. cbn in Hk |- *.
           rewrite in_app_iff. tauto.
        -- now rewrite (py_gt_numbers _ _ b c Hb Hc), Hgt.
        -- rewrite in_app_iff in Hk. cbn in Hk.
           destruct Hk as [Hk | [<- | Hk]];
             [ apply H1, Hk | now apply py_gt_irrefl | apply H2, Hk ].
      * intros k [].
      * exists d, q1, q2. split; [ exact Hd | ]. split; [ | exact Hq ].
        rewrite <- Hsplit. cbn [app]. now rewrite <- app_assoc.
    + (* [m] stays *)
      destruct (IH p1 (p2 ++ [x])%list m) as (d & q1 & q2 & Hd & Hsplit & Hq).
      * intros k Hk. apply Hnum. rewrite <- app_assoc in Hk. exact Hk.
      * exact H1.
      * intros k Hk. rewrite in_app_iff in Hk. cbn in Hk.
        destruct Hk as [Hk | [<- | []]]; [ apply H2, Hk | ].
        now rewrite (py_gt_numbers _ _ b c Hb Hc), Hgt.
      * exists d, q1, q2. split; [ exact Hd | ]. split; [ | exact Hq ].
        rewrite <- Hsplit. now rewrite <- app_assoc.
Qed.

End FirstMaximum.

Section DominantEmotion.

Variable json_loads : string -> result value.
Variable remote : request -> result response.

(** C1. On a successful return for a reply other than 400 whose five
    scores are numbers, the dominant emotion is a key [d] of the fixed
    order such that no key holds a score greater than the score of [d],
    and no key placed before [d] holds a score equal to it. *)
Theorem dominant_is_first_maximum (text : string) (t t' : trace)
    (resp : response) (r : EmotionResult) :
  remote (request_for text) = Ok resp ->
  status_code resp <> 400 ->
  emotion_detector json_loads remote text t = (Ok r, t') ->
  (forall k, In k emotion_keys -> is_number (score r k) = true) ->
  exists d earlier later,
    dominant_emotion r = Some d /\
    emotion_keys = (earlier ++ d :: later)%list /\
    (forall k, In k emotion_keys -> py_gt (score r k) (score r d) = Ok false) /\
    (forall k, In k earlier -> py_eqeq (score r k) (score r d) = false).
Proof.
  intros Hr Hs Hrun Hnum.
  destruct (detector_Ok json_loads remote text t t' resp r Hr Hs Hrun)
    as (_ & body & er & _ & _ & Hsc).
  destruct (scored_Ok er r Hsc) as (dd & d & _ & _ & Hmax & Hd).
  destruct (max_loop_first_maximum (score r)
              ["disgust"; "fear"; "joy"; "sadness"] [] [] "anger")
    as (d' & q1 & q2 & Hd' & Hsplit & Hq1 & Hq2).
  - exact Hnum.
  - intros k [].
  - intros k [].
  - cbn [py_max emotion_keys] in Hmax. rewrite Hd' in Hmax.
    injection Hmax as ->.
    exists d, q1, q2. split; [ exact Hd | ]. split; [ exact Hsplit | ].
    split; [ | intros k Hk; apply Hq1, Hk ].
    intros k Hk. change emotion_keys with ([] ++ "anger" :: [] ++
      ["disgust"; "fear"; "joy"; "sadness"])%list in Hk.
    rewrite Hsplit, in_app_iff in Hk. cbn in Hk.
    destruct Hk as [Hk | [<- | Hk]].
    + apply Hq1, Hk.
    + apply py_gt_irrefl, Hnum.
      change emotion_keys with ([] ++ "anger" :: [] ++
        ["disgust"; "fear"; "joy"; "sadness"])%list.
      rewrite Hsplit, in_app_iff. cbn. tauto.
    + apply Hq2, Hk.
Qed.

End DominantEmotion.

(** *** The scoring stage returns on numbers *)

Lemma scored_numbers_return (object : list (string * value)) :
  (forall k v, In k emotion_keys -> lookup k object = Some v ->
               is_number v = true) ->
  exists r, scored (VDict object) = Ok r.
Proof.
  intros Hnum. unfold scored. cbn [py_get rbind].
  match goal with
  | |- context [py_max (dict_keys ?scores) (dict_get ?scores)] =>
      destruct (max_loop_first_maximum (dict_get scores)
                  ["disgust"; "fear"; "joy"; "sadness"] [] [] "anger")
        as (d & _ & _ & Hd & _)
  end.
  - intros k Hk. cbn in Hk.
    repeat (destruct Hk as [<- | Hk];
            [ cbn; match goal with
                   | |- context [lookup ?key object] =>
                       destruct (lookup key object) eqn:Hl;
                       [ apply (Hnum key); [ cbn; tauto | exact Hl ]
                       | reflexivity ]
                   end | ]).
    contradiction.
  - intros k [].
  - intros k [].
  - cbn [py_max dict_keys map fst]. rewrite Hd. cbn [rbind]. now eexists.
Qed.

(** *** The statements at concrete replies *)

Import Fixtures.

Local Abbreviation run_on body :=
  (emotion_detector loads_empty_object (canned 200 (Some body)) "hi" []).

(** Shape B: the scores of the first prediction, 0 for the others. *)
Example shape_B_reply :
  run_on body_predictions =
  (Ok result_predictions, trace_of_run body_predictions).
Proof. reflexivity. Qed.

(** Shape A: the nested text is decoded again. *)
Example shape_A_reply :
  fst (run_on body_text) =
  Ok {| anger := VInt 0; disgust := VInt 0; fear := VInt 0; joy := VInt 0;
        sadness := VInt 0; dominant_emotion := Some "anger" |}.
Proof. reflexivity. Qed.

(** Equal maxima: the earlier key wins, also between an [int] and a
    [float] of the same value. *)
Example tie_fear_joy :
  fst (run_on (predictions_of [("joy", nine_tenths); ("fear", nine_tenths);
                               ("anger", half)])) =
  Ok {| anger := half; disgust := VInt 0; fear := nine_tenths;
        joy := nine_tenths; sadness := VInt 0;
        dominant_emotion := Some "fear" |}.
Proof. reflexivity. Qed.

Example tie_int_float :
  fst (run_on (predictions_of [("sadness", one); ("disgust", VInt 1)])) =
  Ok {| anger := VInt 0; disgust := VInt 1; fear := VInt 0; joy := VInt 0;
        sadness := one; dominant_emotion := Some "disgust" |}.
Proof. reflexivity. Qed.

(** A score that is not a number: comparing it with the default 0 raises. *)
Example string_score :
  fst (run_on (predictions_of [("joy", VStr "high")])) = Raise TypeError.
Proof. reflexivity. Qed.

(** NaN is unordered: no score is greater than it, so a NaN under the
    first key stays the maximum. *)
Example nan_score :
  fst (run_on (predictions_of [("anger", nan); ("joy", nine_tenths)])) =
  Ok {| anger := nan; disgust := VInt 0; fear := VInt 0; joy := nine_tenths;
        sadness := VInt 0; dominant_emotion := Some "anger" |}.
Proof. reflexivity. Qed.

(** A [text] that is not a string. *)
Example text_not_a_string :
  fst (run_on (VDict [("text", VInt 7)])) = Raise TypeError.
Proof. reflexivity. Qed.

(** Statuses: 4xx and 5xx raise; any other status goes on to decoding. *)
Example status_404 :
  fst (emotion_detector loads_empty_object
         (canned 404 (Some body_predictions)) "hi" []) = Raise HTTPError.
Proof. reflexivity. Qed.

Example status_500 :
  fst (emotion_detector loads_empty_object
         (canned 500 (Some body_predictions)) "hi" []) = Raise HTTPError.
Proof. reflexivity. Qed.

Example status_302 :
  fst (emotion_detector loads_empty_object
         (canned 302 (Some body_predictions)) "hi" []) = Ok result_predictions.
Proof. reflexivity. Qed.

(** A statement of three spaces goes out as it is. *)
Example spaces_are_posted :
  snd (emotion_detection_view loads_empty_object
         (canned 200 (Some body_predictions)) show (post_form "   ") []) =
  [Post (request_for "   "); Print "Full API response:" body_predictions].
Proof. reflexivity. Qed.

(** The sentence rendered for a result. *)
Example rendered_sentence :
  fst (emotion_detection_view loads_empty_object
         (canned 200 (Some body_predictions)) show (post_form "hi") []) =
  Ok (message_page
        "For the given statement, the system response is 'anger': ?, 'disgust': ?, 'fear': ?, 'joy': ? and 'sadness': ?. The dominant emotion is joy.").
Proof. reflexivity. Qed.

(** A GET renders the bare form and sends nothing. *)
Example get_renders_form :
  emotion_detection_view loads_empty_object
    (canned 200 (Some body_predictions)) show
    {| method := "GET"; form := [] |} [] =
  (Ok (render_template "index.html" None), []).
Proof. reflexivity. Qed.


Lemma dominant_is_first_maximum_witness :
  exists d earlier later,
    dominant_emotion result_predictions = Some d /\
    emotion_keys = (earlier ++ d :: later)%list /\
    (forall k, In k emotion_keys ->
               py_gt (score result_predictions k) (score result_predictions d)
               = Ok false) /\
    (forall k, In k earlier ->
               py_eqeq (score result_predictions k) (score result_predictions d)
               = false).
Proof.
  apply (dominant_is_first_maximum loads_empty_object
           (canned 200 (Some body_predictions)) "hi" []
           (trace_of_run body_predictions) (reply 200 body_predictions)
           result_predictions).
  - reflexivity.
  - discriminate.
  - reflexivity.
  - intros k Hk. cbn in Hk.
    repeat (destruct Hk as [<- | Hk]; [ reflexivity | ]). contradiction.
Defined.



Lemma scores_are_values_or_zero_witness :
  exists body object,
    json_body (reply 200 body_predictions) = Some body /\
    emotion_results loads_empty_object body = Ok (VDict object) /\
    forall k, In k emotion_keys ->
              score result_predictions k =
              match lookup k object with Some v => v | None => VInt 0 end.
Proof.
  apply (scores_are_values_or_zero loads_empty_object
           (canned 200 (Some body_predictions)) "hi" []
           (trace_of_run body_predictions) (reply 200 body_predictions)
           result_predictions).
  - reflexivity.
  - discriminate.
  - reflexivity.
Defined.



Lemma blank_statement_is_rejected_witness :
  emotion_detection_view loads_empty_object
    (canned 200 (Some body_predictions)) show (post_form "") [] =
  (Ok (message_page "Please enter a valid statement."), []).
Proof.
  apply (blank_statement_is_rejected loads_empty_object
           (canned 200 (Some body_predictions)) show (post_form "") []).
  - reflexivity.
  - right. reflexivity.
Defined.

Lemma dominant_defaults_to_anger_witness :
  (forall body object,
      ok (reply 200 body_text) = true ->
      json_body (reply 200 body_text) = Some body ->
      emotion_results loads_empty_object body = Ok (VDict object) ->
      (forall k, In k emotion_keys -> lookup k object = None) ->
      fst (emotion_detector loads_empty_object
             (canned 200 (Some body_text)) "hi" []) =
      Ok {| anger := VInt 0; disgust := VInt 0; fear := VInt 0;
            joy := VInt 0; sadness := VInt 0;
            dominant_emotion := Some "anger" |}) /\
  (forall r t',
      emotion_detector loads_empty_object
        (canned 200 (Some body_text)) "hi" [] = (Ok r, t') ->
      exists d, dominant_emotion r = Some d /\ In d emotion_keys).
Proof.
  apply (dominant_defaults_to_anger loads_empty_object
           (canned 200 (Some body_text)) "hi" [] (reply 200 body_text)).
  - reflexivity.
  - discriminate.
Defined.

Lemma text_field_takes_priority_witness :
  fst (emotion_detector Coverage.loads_object
         (canned 200 (Some Coverage.body_text_joyful)) "hi" []) =
  scored (VDict Coverage.joyful) /\
  fst (emotion_detector Coverage.loads_object
         (canned 200 (Some Coverage.body_text_joyful)) "hi" []) =
  fst (emotion_detector Coverage.loads_object
         (fun _ => Ok (reply 200 (VDict [("text", VStr Coverage.joyful_text)])))
         "hi" []).
Proof.
  apply (text_field_takes_priority Coverage.loads_object
           (canned 200 (Some Coverage.body_text_joyful)) "hi" []
           (reply 200 Coverage.body_text_joyful)
           [("emotionPredictions", VList []); ("text", VStr Coverage.joyful_text)]
           (VStr Coverage.joyful_text) (VList []));
    reflexivity.
Defined.

Lemma nonempty_statement_reaches_client_witness :
  (fst (emotion_detection_view loads_empty_object
          (canned 200 (Some body_predictions)) show (post_form "   ") []) =
   Ok (message_page "Please enter a valid statement.") <->
   form_get "statement" (form (post_form "   ")) = None \/
   form_get "statement" (form (post_form "   ")) = Some "") /\
  (forall s,
      form_get "statement" (form (post_form "   ")) = Some s ->
      s <> "" ->
      snd (emotion_detection_view loads_empty_object
             (canned 200 (Some body_predictions)) show (post_form "   ") []) =
      snd (emotion_detector loads_empty_object
             (canned 200 (Some body_predictions)) s []) /\
      exists rest,
        snd (emotion_detection_view loads_empty_object
               (canned 200 (Some body_predictions)) show (post_form "   ") []) =
        ([] ++ Post (request_for s) :: rest)%list).
Proof.
  apply (nonempty_statement_reaches_client loads_empty_object
           (canned 200 (Some body_predictions)) show (post_form "   ") []).
  reflexivity.
Defined.

(** ** Further properties of the two modules and of the tests *)

Import Tests Coverage.

(** *** The scoring stage, in closed form *)

(** [max] only looks at the keys of the items it is given. *)
Lemma max_loop_ext (key1 key2 : string -> value) (items : list string)
    (m : string) (mv : value) :
  (forall x, In x items -> key1 x = key2 x) ->
  max_loop key1 m mv items = max_loop key2 m mv items.
Proof.
  revert m mv. induction items as [ | x items IH ]; intros m mv Hext;
    [ reflexivity | ].
  cbn [max_loop]. rewrite <- (Hext x) by now left.
  destruct (py_gt (key1 x) mv) as [[ | ] | e]; cbn [rbind];
    try reflexivity; apply IH; intros y Hy; apply Hext; now right.
Qed.

(** On a dict, the scoring stage is [max] over the five keys with the
    defaulted values, wrapped into the result. *)
Lemma scored_dict (object : list (string * value)) :
  scored (VDict object) =
  rbind (py_max emotion_keys (default_score object))
        (fun d => Ok (result_of object d)).
Proof.
  unfold scored. cbn [py_get rbind].
  match goal with
  | |- rbind (py_max ?ks ?f) _ = _ =>
      replace (py_max ks f) with (py_max emotion_keys (default_score object))
  end; [ reflexivity | ].
  cbn [py_max emotion_keys dict_keys map fst].
  apply max_loop_ext. intros x Hx. cbn in Hx.
  repeat (destruct Hx as [<- | Hx]; [ reflexivity | ]). contradiction.
Qed.

(** An item that nothing later exceeds stays the maximum. *)
Lemma max_loop_keeps (key : string -> value) (post : list string) (k : string) :
  (forall x, In x post -> py_gt (key x) (key k) = Ok false) ->
  max_loop key k (key k) post = Ok k.
Proof.
  induction post as [ | x post IH ]; intros Hpost; [ reflexivity | ].
  cbn [max_loop]. rewrite (Hpost x) by now left. cbn [rbind].
  apply IH. intros y Hy. apply Hpost. now right.
Qed.

(** An item that exceeds every number before it and that nothing later
    exceeds is the one [max] returns. *)
Lemma max_loop_picks (key : string -> value) (pre post : list string)
    (m k : string) :
  (forall x, In x (m :: pre) ->
             is_number (key x) = true /\ py_gt (key k) (key x) = Ok true) ->
  (forall x, In x post -> py_gt (key x) (key k) = Ok false) ->
  max_loop key m (key m) (pre ++ k :: post) = Ok k.
Proof.
  revert m. induction pre as [ | x pre IH ]; intros m Hpre Hpost.
  - cbn [app max_loop]. rewrite (proj2 (Hpre m (or_introl eq_refl))).
    cbn [rbind]. now apply max_loop_keeps.
  - cbn [app max_loop].
    destruct (number_has_value (key x)) as [a Ha];
      [ apply Hpre; cbn; tauto | ].
    destruct (number_has_value (key m)) as [b Hb];
      [ apply Hpre; cbn; tauto | ].
    rewrite (py_gt_numbers _ _ a b Ha Hb). cbn [rbind].
    destruct (xgt a b); apply IH; trivial;
      intros y Hy; apply Hpre; cbn in Hy |- *; tauto.
Qed.

Lemma py_max_picks (key : string -> value) (earlier later : list string)
    (k : string) :
  (forall x, In x earlier ->
             is_number (key x) = true /\ py_gt (key k) (key x) = Ok true) ->
  (forall x, In x later -> py_gt (key x) (key k) = Ok false) ->
  py_max (earlier ++ k :: later) key = Ok k.
Proof.
  destruct earlier as [ | m pre ]; intros Hpre Hpost; cbn [app py_max].
  - now apply max_loop_keeps.
  - now apply max_loop_picks.
Qed.

(** *** Which key becomes dominant *)

Section Dominance.

Variable json_loads : string -> result value.
Variable remote : request -> result response.

Local Abbreviation detector := (emotion_detector json_loads remote).

(** A key that exceeds the numbers before it and that nothing later
    exceeds is the one a usable reply gets as dominant emotion. *)
Lemma first_maximum_run (text : string) (t : trace)
    (resp : response) (body : value) (object : list (string * value))
    (earlier later : list string) (k : string) :
  remote (request_for text) = Ok resp ->
  ok resp = true ->
  json_body resp = Some body ->
  emotion_results json_loads body = Ok (VDict object) ->
  emotion_keys = (earlier ++ k :: later)%list ->
  (forall x, In x earlier ->
             is_number (default_score object x) = true /\
             py_gt (default_score object k) (default_score object x) = Ok true) ->
  (forall x, In x later ->
             py_gt (default_score object x) (default_score object k) = Ok false) ->
  fst (detector text t) = Ok (result_of object k).
Proof.
  intros Hr Hok Hb He Hkeys Hearlier Hlater.
  rewrite (detector_usable json_loads remote text t resp body _ Hr Hok Hb He).
  rewrite scored_dict, Hkeys.
  now rewrite (py_max_picks (default_score object) earlier later k Hearlier Hlater).
Qed.

(** X1. For a usable reply, a key whose score exceeds the (numeric)
    score of every earlier key and is exceeded by no later key is the
    dominant emotion, and the result holds the object's values with 0 for
    the missing keys. *)
Theorem first_maximum_is_dominant (text : string) (t : trace)
    (resp : response) (body : value) (object : list (string * value))
    (earlier later : list string) (k : string) :
  remote (request_for text) = Ok resp ->
  ok resp = true ->
  json_body resp = Some body ->
  emotion_results json_loads body = Ok (VDict object) ->
  emotion_keys = (earlier ++ k :: later)%list ->
  (forall x, In x earlier ->
             is_number (default_score object x) = true /\
             py_gt (default_score object k) (default_score object x) = Ok true) ->
  (forall x, In x later ->
             py_gt (default_score object x) (default_score object k) = Ok false) ->
  fst (detector text t) = Ok (result_of object k).
Proof. exact (first_maximum_run text t resp body object earlier later k). Qed.

(** X2. For a usable reply whose five scores (values or default 0) are
    numbers, the call returns: the result holds those scores and one of
    the five keys as dominant emotion. *)
Theorem numeric_scores_always_return (text : string) (t : trace)
    (resp : response) (body : value) (object : list (string * value)) :
  remote (request_for text) = Ok resp ->
  ok resp = true ->
  json_body resp = Some body ->
  emotion_results json_loads body = Ok (VDict object) ->
  (forall x, In x emotion_keys -> is_number (default_score object x) = true) ->
  exists d, In d emotion_keys /\ fst (detector text t) = Ok (result_of object d).
Proof.
  intros Hr Hok Hb He Hnum.
  rewrite (detector_usable json_loads remote text t resp body _ Hr Hok Hb He).
  rewrite scored_dict.
  destruct (max_loop_first_maximum (default_score object)
              ["disgust"; "fear"; "joy"; "sadness"] [] [] "anger")
    as (d & _ & _ & Hd & _).
  - exact Hnum.
  - intros x [].
  - intros x [].
  - exists d. cbn [py_max emotion_keys]. rewrite Hd. split; [ | reflexivity ].
    apply max_loop_In in Hd. destruct Hd as [-> | Hd]; cbn; tauto.
Qed.

End Dominance.

(** *** NaN scores and the families of scores *)

Lemma nan_is_never_greater (v w : value) :
  is_nan v = true -> py_gt v w <> Ok true.
Proof.
  destruct v as [ | | | [ | | | ] | | | ]; try discriminate. intros _.
  destruct w as [ | b | z | f | | | ]; cbn; discriminate.
Qed.

Lemma nothing_exceeds_nan (v w : value) :
  is_number v = true -> is_nan w = true -> py_gt v w = Ok false.
Proof.
  intros Hv Hw.
  destruct w as [ | | | [ | | | ] | | | ]; try discriminate.
  destruct (number_has_value v Hv) as [a Ha].
  rewrite (py_gt_numbers v (VFloat S754_nan) a XNaN Ha eq_refl).
  now destruct a.
Qed.

(** The item [max] returns is the first one or one that was found
    greater than some value. *)
Lemma max_loop_chosen (key : string -> value) (items : list string)
    (m : string) (mv : value) (d : string) :
  max_loop key m mv items = Ok d ->
  d = m \/ exists w, py_gt (key d) w = Ok true.
Proof.
  revert m mv. induction items as [ | x items IH ]; intros m mv; cbn [max_loop].
  - intros [= ->]. now left.
  - destruct (py_gt (key x) mv) as [[ | ] | e] eqn:Hgt; cbn [rbind];
      [ | apply IH | discriminate ].
    intros H. destruct (IH _ _ H) as [-> | Hw]; [ | now right ].
    right. now exists mv.
Qed.

(** Two values that [>] accepts are of one family. *)
Lemma py_gt_family (v w : value) (b : bool) :
  py_gt v w = Ok b ->
  exists c, family_of v = Some c /\ family_of w = Some c.
Proof.
  destruct v, w; cbn [py_gt number_value family_of]; try discriminate;
    intros _; eauto.
Qed.

Lemma max_loop_family (key : string -> value) (items : list string)
    (m : string) (mv : value) (d : string) :
  items <> [] ->
  max_loop key m mv items = Ok d ->
  exists c, family_of mv = Some c /\
            forall x, In x items -> family_of (key x) = Some c.
Proof.
  revert m mv. induction items as [ | x items IH ]; intros m mv Hne;
    [ contradiction | ].
  cbn [max_loop].
  destruct (py_gt (key x) mv) as [b | e] eqn:Hgt; cbn [rbind]; [ | discriminate ].
  destruct (py_gt_family _ _ _ Hgt) as (c & Hx & Hm).
  intros Hrun. exists c. split; [ exact Hm | ].
  destruct items as [ | y items ].
  - intros z [<- | []]. exact Hx.
  - assert (Hrest : forall z, In z (y :: items) -> family_of (key z) = Some c).
    { destruct b.
      - destruct (IH x (key x)) as (c' & Hc' & Hall); [ discriminate | exact Hrun | ].
        assert (c' = c) by congruence. subst c'. exact Hall.
      - destruct (IH m mv) as (c' & Hc' & Hall); [ discriminate | exact Hrun | ].
        assert (c' = c) by congruence. subst c'. exact Hall. }
    intros z [<- | Hz]; [ exact Hx | now apply Hrest ].
Qed.

Section ScoresOfAResult.

Variable json_loads : string -> result value.
Variable remote : request -> result response.

Local Abbreviation detector := (emotion_detector json_loads remote).

(** X3. NaN and the dominant emotion, for a usable reply: when the score
    under "anger" is NaN and the five scores are numbers, "anger" is
    dominant whatever the other scores are; and a key whose score is NaN
    is never dominant unless it is "anger". *)
Theorem nan_is_dominant_only_first (text : string) (t : trace)
    (resp : response) (body : value) (object : list (string * value)) :
  remote (request_for text) = Ok resp ->
  ok resp = true ->
  json_body resp = Some body ->
  emotion_results json_loads body = Ok (VDict object) ->
  ((forall x, In x emotion_keys -> is_number (default_score object x) = true) ->
   is_nan (default_score object "anger") = true ->
   fst (detector text t) = Ok (result_of object "anger")) /\
  (forall d,
      fst (detector text t) = Ok (result_of object d) ->
      is_nan (default_score object d) = true ->
      d = "anger").
Proof.
  intros Hr Hok Hb He.
  rewrite (detector_usable json_loads remote text t resp body _ Hr Hok Hb He).
  rewrite scored_dict. split.
  - intros Hnum Hnan.
    change emotion_keys
      with ([] ++ "anger" :: ["disgust"; "fear"; "joy"; "sadness"])%list.
    rewrite (py_max_picks (default_score object) []
               ["disgust"; "fear"; "joy"; "sadness"] "anger");
      [ reflexivity | intros x [] | ].
    intros x Hx. apply nothing_exceeds_nan; [ | exact Hnan ].
    apply Hnum. now right.
  - intros d Hrun Hnan.
    destruct (py_max emotion_keys (default_score object)) as [d' | e] eqn:Hmax;
      cbn [rbind] in Hrun; [ | discriminate ].
    injection Hrun as Hd. subst d'.
    apply max_loop_chosen in Hmax. destruct Hmax as [-> | (w & Hw)];
      [ reflexivity | ].
    now apply (nan_is_never_greater _ w) in Hnan.
Qed.

(** X4. On a successful return for a reply other than 400, the five
    scores are of one family: all numbers, all strings or all lists.  In
    particular none of them is [None] or an object. *)
Theorem scores_share_a_family (text : string) (t t' : trace)
    (resp : response) (r : EmotionResult) :
  remote (request_for text) = Ok resp ->
  status_code resp <> 400 ->
  detector text t = (Ok r, t') ->
  exists c, forall k, In k emotion_keys -> family_of (score r k) = Some c.
Proof.
  intros Hr Hs Hrun.
  destruct (detector_Ok json_loads remote text t t' resp r Hr Hs Hrun)
    as (_ & body & er & _ & _ & Hsc).
  destruct (scored_Ok er r Hsc) as (dd & d & _ & _ & Hmax & _).
  cbn [py_max emotion_keys] in Hmax.
  destruct (max_loop_family (score r) ["disgust"; "fear"; "joy"; "sadness"]
              "anger" (score r "anger") d) as (c & Hc & Hall);
    [ discriminate | exact Hmax | ].
  exists c. intros k [<- | Hk]; [ exact Hc | now apply Hall ].
Qed.

End ScoresOfAResult.

(** *** Exceptions of a decoded reply *)

(** A value that counts as true can be subscripted with 0 unless it is
    an object or not a container at all. *)
Lemma py_getitem0_truthy (p : value) (e : exn) :
  py_truthy p = true ->
  py_getitem0 p = Raise e -> e = KeyError \/ e = TypeError.
Proof.
  destruct p as [ | | | | s | l | d ]; cbn; try (right; congruence).
  - destruct s; [ discriminate | discriminate ].
  - destruct l; [ discriminate | discriminate ].
  - left. congruence.
Qed.

Section ExceptionsOfAReply.

Variable json_loads : string -> result value.
Variable remote : request -> result response.

Local Abbreviation detector := (emotion_detector json_loads remote).

Local Ltac known_exception :=
  match goal with
  | H : py_contains _ _ = Raise ?e |- _ =>
      apply py_contains_raises in H; subst e
  | H : py_getitem _ _ = Raise ?e |- _ =>
      apply py_getitem_raises in H; destruct H; subst e
  | H : py_get _ _ _ = Raise ?e |- _ =>
      apply py_get_raises in H; subst e
  | Ht : py_truthy ?p = true, H : py_getitem0 ?p = Raise ?e |- _ =>
      apply (py_getitem0_truthy p e Ht) in H; destruct H; subst e
  end.

(** Only an object can be subscripted with a name. *)
Lemma py_getitem_Ok (body : value) (key : string) (v : value) :
  py_getitem body key = Ok v ->
  exists d, body = VDict d /\ lookup key d = Some v.
Proof.
  destruct body as [ | | | | | | d ]; try discriminate. cbn.
  destruct (lookup key d) as [x | ] eqn:Hl; [ | discriminate ].
  intros [= <-]. now exists d.
Qed.

(** The extraction stage raises [ValueError], [TypeError],
    [AttributeError] or [KeyError] of its own, and lets through what the
    decoder raises on the text, [JSONDecodeError] apart. *)
Lemma emotion_results_raises (body : value) (e : exn) :
  emotion_results json_loads body = Raise e ->
  from_reply e = true \/
  exists d s,
    body = VDict d /\ lookup "text" d = Some (VStr s) /\
    json_loads s = Raise e /\ e <> JSONDecodeError.
Proof.
  unfold emotion_results.
  destruct (py_contains "text" body) as [[ | ] | e0] eqn:Ht; cbn [rbind].
  - destruct (py_getitem body "text") as [v | e0] eqn:Hg; cbn [rbind].
    + destruct v as [ | | | | s | | ]; cbn [loads];
        try (intros [= <-]; left; reflexivity).
      destruct (py_getitem_Ok body "text" (VStr s) Hg) as (d & -> & Hd).
      destruct (json_loads s) as [x | e0] eqn:Hl; [ discriminate | ].
      destruct e0; intros [= <-];
        try (left; reflexivity);
        right; exists d, s; repeat split; trivial; discriminate.
    + known_exception; intros [= <-]; left; reflexivity.
  - destruct (py_contains "emotionPredictions" body) as [[ | ] | e0] eqn:Hp;
      cbn [rbind].
    + destruct (py_get body "emotionPredictions" (VList [])) as [p | e0] eqn:Hget;
        cbn [rbind]; [ | known_exception; intros [= <-]; left; reflexivity ].
      destruct (py_truthy p) eqn:Htruthy; [ | intros [= <-]; left; reflexivity ].
      destruct (py_getitem0 p) as [first | e0] eqn:H0; cbn [rbind];
        [ | known_exception; intros [= <-]; left; reflexivity ].
      destruct (py_contains "emotion" first) as [[ | ] | e0] eqn:Hin;
        cbn [rbind].
      * destruct (py_getitem first "emotion") as [x | e0] eqn:Hx;
          [ discriminate | known_exception; intros [= <-]; left; reflexivity ].
      * intros [= <-]. left. reflexivity.
      * known_exception. intros [= <-]. left. reflexivity.
    + intros [= <-]. left. reflexivity.
    + known_exception. intros [= <-]. left. reflexivity.
  - known_exception. intros [= <-]. left. reflexivity.
Qed.

(** Which [ValueError] comes out of a usable status. *)
Lemma detector_ValueError (text : string) (t : trace) (resp : response)
    (body : value) (msg : string) :
  remote (request_for text) = Ok resp ->
  ok resp = true ->
  json_body resp = Some body ->
  fst (detector text t) = Raise (ValueError msg) <->
  emotion_results json_loads body = Raise (ValueError msg).
Proof.
  intros Hr Hok Hb. rewrite emotion_detector_run, Hr.
  destruct (Z.eqb_spec (status_code resp) 400) as [H400 | _].
  { unfold ok in Hok. rewrite H400 in Hok. discriminate. }
  rewrite Hok, Hb. cbn [fst].
  destruct (emotion_results json_loads body) as [er | e]; cbn [rbind].
  - split; [ | discriminate ].
    intros H. apply scored_raises in H. destruct H; discriminate.
  - split; congruence.
Qed.

(** The [ValueError]s of the extraction stage on a reply of the
    documented types, with their messages. *)
Lemma emotion_results_ValueError (body : value) (msg : string) :
  documented_reply body ->
  emotion_results json_loads body = Raise (ValueError msg) <->
  (msg = msg_decode /\
   exists s, field "text" body = Some (VStr s) /\
             json_loads s = Raise JSONDecodeError) \/
  (exists s, field "text" body = Some (VStr s) /\
             json_loads s = Raise (ValueError msg)) \/
  (msg = msg_predictions /\ no_field "text" body /\ predictions_unusable body) \/
  (msg = msg_format /\ neither_field body).
Proof.
  destruct body as [ | | | | | | d ]; try contradiction.
  unfold documented_reply, predictions_unusable, neither_field, no_field,
    msg_decode, msg_predictions, msg_format.
  cbn [field].
  destruct (lookup "text" d) as [v | ] eqn:Ht.
  - intros _. rewrite (emotion_results_text json_loads d v Ht).
    destruct v as [ | | | | s | | ]; cbn [loads];
      try (split;
           [ discriminate
           | intros [(_ & s' & [=] & _)
                    | [(s' & [=] & _) | [(_ & [=] & _) | (_ & [=] & _)]]] ]).
    destruct (json_loads s) as [x | e] eqn:Hl.
    + split; [ discriminate | ].
      intros [(_ & s' & [= <-] & Hl')
             | [(s' & [= <-] & Hl') | [(_ & [=] & _) | (_ & [=] & _)]]];
        congruence.
    + split.
      * destruct e; intros [= <-].
        -- left. split; [ reflexivity | ]. now exists s.
        -- right. left. now exists s.
      * intros [(Hm & s' & [= <-] & Hl')
               | [(s' & [= <-] & Hl') | [(_ & [=] & _) | (_ & [=] & _)]]].
        -- assert (e = JSONDecodeError) by congruence. subst e.
           now rewrite Hm.
        -- assert (e = ValueError msg) by congruence. subst e. reflexivity.
  - destruct (lookup "emotionPredictions" d) as [p | ] eqn:Hp.
    + destruct p as [ | | | | | [ | first rest ] | ]; try contradiction.
      * intros _. rewrite (emotion_results_no_predictions json_loads d Ht Hp).
        split.
        -- intros [= <-]. right. right. left.
           split; [ reflexivity | ]. split; [ reflexivity | ].
           exists []. split; [ reflexivity | now left ].
        -- intros [(_ & s' & [=] & _)
                  | [(s' & [=] & _) | [(-> & _) | (_ & _ & [=])]]].
           reflexivity.
      * destruct first as [ | | | | | | first ]; try contradiction.
        intros _.
        rewrite (emotion_results_first_prediction json_loads d first rest Ht Hp).
        destruct (lookup "emotion" first) as [x | ] eqn:He.
        -- split; [ discriminate | ].
           intros [(_ & s' & [=] & _)
                  | [(s' & [=] & _)
                    | [(_ & _ & l & [= <-] & Hl) | (_ & _ & [=])]]].
           destruct Hl as [[=] | (first' & rest' & [= <- _] & Hno)].
           cbn [field] in Hno. congruence.
        -- split.
           ++ intros [= <-]. right. right. left.
              split; [ reflexivity | ]. split; [ reflexivity | ].
              exists (VDict first :: rest). split; [ reflexivity | ].
              right. exists (VDict first), rest. split; [ reflexivity | exact He ].
           ++ intros [(_ & s' & [=] & _)
                     | [(s' & [=] & _) | [(-> & _) | (_ & _ & [=])]]].
              reflexivity.
    + intros _. rewrite (emotion_results_neither json_loads d Ht Hp).
      split.
      * intros [= <-]. right. right. right. now repeat split.
      * intros [(_ & s' & [=] & _)
               | [(s' & [=] & _) | [(_ & _ & l & [=] & _) | (-> & _)]]].
        reflexivity.
Qed.

(** X5. For a reply with a success status and a decoded body, an
    exception that comes out of [emotion_detector] is never the decoder's
    [JSONDecodeError], and it is a [ValueError], [TypeError],
    [AttributeError] or [KeyError] unless it is the exception
    [json.loads] itself raised on the [text] string ([RecursionError],
    say), which is passed on unchanged. *)
Theorem decoded_reply_exceptions (text : string) (t : trace)
    (resp : response) (body : value) (e : exn) :
  remote (request_for text) = Ok resp ->
  ok resp = true ->
  json_body resp = Some body ->
  fst (detector text t) = Raise e ->
  e <> JSONDecodeError /\
  (from_reply e = true \/
   exists d s,
     body = VDict d /\ lookup "text" d = Some (VStr s) /\
     json_loads s = Raise e).
Proof.
  intros Hr Hok Hb. rewrite emotion_detector_run, Hr.
  destruct (Z.eqb_spec (status_code resp) 400) as [H400 | _].
  { unfold ok in Hok. rewrite H400 in Hok. discriminate. }
  rewrite Hok, Hb. cbn [fst].
  destruct (emotion_results json_loads body) as [er | e'] eqn:He; cbn [rbind].
  - intros H. apply scored_raises in H.
    destruct H; subst e; (split; [ discriminate | now left ]).
  - intros [= <-].
    destruct (emotion_results_raises body e' He)
      as [Hfrom | (d & s & Hd & Ht & Hl & Hne)].
    + split; [ intros ->; discriminate | now left ].
    + split; [ exact Hne | ]. right. now exists d, s.
Qed.

(** X6. For a reply with a success status whose body decodes to an
    object of the documented types, a [ValueError] with a given message
    is raised exactly in these cases: "Failed to decode JSON from 'text'
    attribute." when [json.loads] raises [JSONDecodeError] on the [text]
    string; the message of [json.loads]'s own [ValueError] when it raises
    one on the [text] string (it is not caught); "Could not extract
    emotion predictions from the response." when there is no [text] and
    [emotionPredictions] is an empty list or its first element has no
    [emotion]; "Unexpected response format from API." when neither field
    is there. *)
Theorem malformed_messages (text : string) (t : trace)
    (resp : response) (body : value) (msg : string) :
  remote (request_for text) = Ok resp ->
  ok resp = true ->
  json_body resp = Some body ->
  documented_reply body ->
  fst (detector text t) = Raise (ValueError msg) <->
  (msg = msg_decode /\
   exists s, field "text" body = Some (VStr s) /\
             json_loads s = Raise JSONDecodeError) \/
  (exists s, field "text" body = Some (VStr s) /\
             json_loads s = Raise (ValueError msg)) \/
  (msg = msg_predictions /\ no_field "text" body /\ predictions_unusable body) \/
  (msg = msg_format /\ neither_field body).
Proof.
  intros Hr Hok Hb Htyped.
  rewrite (detector_ValueError text t resp body msg Hr Hok Hb).
  exact (emotion_results_ValueError body msg Htyped).
Qed.

End ExceptionsOfAReply.

(** *** What a call sends and prints, and how the two shapes are read *)

Section CallsAndShapes.

Variable json_loads : string -> result value.
Variable remote : request -> result response.

Local Abbreviation detector := (emotion_detector json_loads remote).

(** X7. Whatever the service does (fail, answer 400, answer an error
    status, answer garbage or a usable reply), one call of
    [emotion_detector] adds exactly one POST to the trace, the request
    for the text: nothing is sent twice. *)
Theorem one_request_per_call (text : string) (t : trace) :
  filter is_post (snd (detector text t)) =
  (filter is_post t ++ [Post (request_for text)])%list.
Proof.
  rewrite emotion_detector_run. unfold posted.
  destruct (remote (request_for text)) as [resp | e]; cbn [snd];
    [ | now rewrite filter_app ].
  destruct (status_code resp =? 400); cbn [snd]; [ now rewrite filter_app | ].
  destruct (ok resp); cbn [snd]; [ | now rewrite filter_app ].
  destruct (json_body resp) as [body | ]; cbn [snd];
    [ | now rewrite filter_app ].
  rewrite !filter_app. cbn. now rewrite app_nil_r.
Qed.

(** X8. A decoded reply with a success status is printed, after the
    POST, before it is looked into: also when extraction or scoring then
    raises.  In every other case (transport failure, 400, error status,
    undecodable body) the POST is the only event. *)
Theorem reply_is_printed_before_use (text : string) (t : trace) :
  (forall resp body,
      remote (request_for text) = Ok resp ->
      ok resp = true ->
      json_body resp = Some body ->
      snd (detector text t) =
      (posted text t ++ [Print "Full API response:" body])%list) /\
  ((forall resp body,
       remote (request_for text) = Ok resp ->
       ok resp = true ->
       json_body resp = Some body -> False) ->
   snd (detector text t) = posted text t).
Proof.
  rewrite emotion_detector_run. split.
  - intros resp body Hr Hok Hb. rewrite Hr.
    destruct (Z.eqb_spec (status_code resp) 400) as [H400 | _].
    { unfold ok in Hok. rewrite H400 in Hok. discriminate. }
    now rewrite Hok, Hb.
  - intros Hnot.
    destruct (remote (request_for text)) as [resp | e]; [ | reflexivity ].
    destruct (status_code resp =? 400); [ reflexivity | ].
    destruct (ok resp) eqn:Hok; [ | reflexivity ].
    destruct (json_body resp) as [body | ] eqn:Hb; [ | reflexivity ].
    destruct (Hnot resp body eq_refl Hok Hb).
Qed.

(** X9. Shape A: when the reply has a [text] string that decodes, the
    result is computed from the decoded value and from nothing else in
    the reply. *)
Theorem nested_text_is_decoded (text : string) (t : trace) (resp : response)
    (d : list (string * value)) (s : string) (e : value) :
  remote (request_for text) = Ok resp ->
  ok resp = true ->
  json_body resp = Some (VDict d) ->
  lookup "text" d = Some (VStr s) ->
  json_loads s = Ok e ->
  fst (detector text t) = scored e.
Proof.
  intros Hr Hok Hb Ht Hs.
  apply (detector_usable json_loads remote text t resp (VDict d) e Hr Hok Hb).
  unfold emotion_results, py_contains, has_key, py_getitem.
  rewrite Ht. cbn [rbind loads]. now rewrite Hs.
Qed.

(** X10. Shape B: without a [text] field, the result is computed from
    the [emotion] field of the first prediction; the predictions after
    the first, and the other fields of the first, play no part. *)
Theorem first_prediction_is_used (text : string) (t : trace)
    (resp : response) (d first : list (string * value))
    (others : list value) (e : value) :
  remote (request_for text) = Ok resp ->
  ok resp = true ->
  json_body resp = Some (VDict d) ->
  lookup "text" d = None ->
  lookup "emotionPredictions" d = Some (VList (VDict first :: others)) ->
  lookup "emotion" first = Some e ->
  fst (detector text t) = scored e.
Proof.
  intros Hr Hok Hb Ht Hp He.
  apply (detector_usable json_loads remote text t resp (VDict d) e Hr Hok Hb).
  unfold emotion_results, py_contains, has_key, py_get.
  rewrite Ht, Hp. cbn [rbind py_truthy py_getitem0 py_contains has_key].
  rewrite He. cbn [rbind py_getitem]. now rewrite He.
Qed.

(** X11. When the value extracted from a usable reply is not an object
    (a list, a string, a number, [null]), the call raises
    [AttributeError]; it is not reported as a malformed reply. *)
Theorem emotion_must_be_an_object (text : string) (t : trace)
    (resp : response) (body er : value) :
  remote (request_for text) = Ok resp ->
  ok resp = true ->
  json_body resp = Some body ->
  emotion_results json_loads body = Ok er ->
  (forall object, er <> VDict object) ->
  fst (detector text t) = Raise AttributeError.
Proof.
  intros Hr Hok Hb He Hnot.
  rewrite (detector_usable json_loads remote text t resp body er Hr Hok Hb He).
  destruct er as [ | | | | | | object ]; try reflexivity.
  now destruct (Hnot object).
Qed.

End CallsAndShapes.

(** The scoring reads the object through its five keys only. *)
Lemma scored_other_keys (object1 object2 : list (string * value)) :
  (forall k, In k emotion_keys -> lookup k object1 = lookup k object2) ->
  scored (VDict object1) = scored (VDict object2).
Proof.
  intros Hsame.
  assert (Hscore : forall k, In k emotion_keys ->
                             default_score object1 k = default_score object2 k).
  { intros k Hk. unfold default_score. now rewrite (Hsame k Hk). }
  rewrite !scored_dict. cbn [py_max emotion_keys].
  rewrite (max_loop_ext (default_score object1) (default_score object2))
    by (intros x Hx; apply Hscore; now right).
  rewrite (Hscore "anger") by (cbn; tauto).
  unfold result_of.
  rewrite (Hscore "anger"), (Hscore "disgust"), (Hscore "fear"),
    (Hscore "joy"), (Hscore "sadness") by (cbn; tauto).
  reflexivity.
Qed.

(** X12. The emotion-keyed object is read through its five keys only:
    two usable replies whose objects agree on them, whatever else the
    objects hold and in whatever order, give the same result or the same
    exception. *)
Theorem other_keys_are_ignored (json_loads : string -> result value)
    (remote1 remote2 : request -> result response) (text : string)
    (t1 t2 : trace) (resp1 resp2 : response) (body1 body2 : value)
    (object1 object2 : list (string * value)) :
  remote1 (request_for text) = Ok resp1 ->
  ok resp1 = true ->
  json_body resp1 = Some body1 ->
  emotion_results json_loads body1 = Ok (VDict object1) ->
  remote2 (request_for text) = Ok resp2 ->
  ok resp2 = true ->
  json_body resp2 = Some body2 ->
  emotion_results json_loads body2 = Ok (VDict object2) ->
  (forall k, In k emotion_keys -> lookup k object1 = lookup k object2) ->
  fst (emotion_detector json_loads remote1 text t1) =
  fst (emotion_detector json_loads remote2 text t2).
Proof.
  intros Hr1 Hok1 Hb1 He1 Hr2 Hok2 Hb2 He2 Hsame.
  rewrite (detector_usable json_loads remote1 text t1 resp1 body1 _ Hr1 Hok1 Hb1 He1).
  rewrite (detector_usable json_loads remote2 text t2 resp2 body2 _ Hr2 Hok2 Hb2 He2).
  now apply scored_other_keys.
Qed.

(** *** The view around the client *)

Section ViewAroundClient.

Variable json_loads : string -> result value.
Variable remote : request -> result response.
Variable py_format : value -> string.

Local Abbreviation detector := (emotion_detector json_loads remote).
Local Abbreviation view := (emotion_detection_view json_loads remote py_format).

(** A result the client returns for a reply other than 400 names a
    dominant emotion. *)
Lemma detector_names_dominant (text : string) (t t' : trace)
    (resp : response) (r : EmotionResult) :
  remote (request_for text) = Ok resp ->
  status_code resp <> 400 ->
  detector text t = (Ok r, t') ->
  exists d, dominant_emotion r = Some d.
Proof.
  intros Hr Hs Hrun.
  destruct (detector_Ok json_loads remote text t t' resp r Hr Hs Hrun)
    as (_ & body & er & _ & _ & Hsc).
  destruct (scored_Ok er r Hsc) as (dd & d & _ & _ & _ & Hd).
  now exists d.
Qed.

(** X13. On a POST with a non-empty statement that the service answers,
    the view shows "Invalid text! Please try again!" exactly when the
    status of the reply is 400. *)
Theorem invalid_text_exactly_on_400 (req : flask_request) (s : string)
    (t : trace) (resp : response) :
  method req = "POST" ->
  form_get "statement" (form req) = Some s ->
  s <> "" ->
  remote (request_for s) = Ok resp ->
  fst (view req t) = Ok (message_page "Invalid text! Please try again!") <->
  status_code resp = 400.
Proof.
  intros Hm Hf Hs Hr.
  rewrite (view_forwards json_loads remote py_format req s t Hm Hf Hs).
  split.
  - intros Hpage.
    destruct (Z.eq_dec (status_code resp) 400) as [H400 | Hnot]; [ exact H400 | ].
    exfalso.
    destruct (detector s t) as [[r | e] t'] eqn:Hrun; cbn [fst] in Hpage;
      [ | discriminate ].
    destruct (detector_names_dominant s t t' resp r Hr Hnot Hrun) as [d Hd].
    rewrite Hd in Hpage. unfold message_page, render_template in Hpage.
    cbn in Hpage. discriminate.
  - intros H400. rewrite emotion_detector_run, Hr, H400. reflexivity.
Qed.

(** X14. The view catches nothing and raises nothing of its own: an
    exception comes out of it exactly when the request is a POST with a
    non-empty statement on which the client raises that exception. *)
Theorem view_raises_what_client_raises (req : flask_request) (t : trace)
    (e : exn) :
  fst (view req t) = Raise e <->
  method req = "POST" /\
  exists s, form_get "statement" (form req) = Some s /\ s <> "" /\
            fst (detector s t) = Raise e.
Proof.
  split.
  - intros Hraise.
    destruct (string_dec (method req) "POST") as [Hm | Hm].
    + split; [ exact Hm | ].
      destruct (form_get "statement" (form req)) as [s | ] eqn:Hf.
      * destruct (string_dec s "") as [-> | Hs].
        -- rewrite (view_rejects_blank json_loads remote py_format req t Hm)
             in Hraise by now right.
           discriminate.
        -- exists s. repeat split; trivial.
           rewrite (view_forwards json_loads remote py_format req s t Hm Hf Hs)
             in Hraise.
           destruct (detector s t) as [[r | e'] t']; cbn [fst] in *;
             [ discriminate | congruence ].
      * rewrite (view_rejects_blank json_loads remote py_format req t Hm)
          in Hraise by now left.
        discriminate.
    + exfalso. unfold emotion_detection_view in Hraise.
      apply String.eqb_neq in Hm. rewrite Hm in Hraise. discriminate.
  - intros (Hm & s & Hf & Hs & Hraise).
    rewrite (view_forwards json_loads remote py_format req s t Hm Hf Hs).
    destruct (detector s t) as [[r | e'] t']; cbn [fst] in *;
      [ discriminate | congruence ].
Qed.

(** X15. Every page the view returns is [index.html].  It carries no
    result exactly when the method is not POST; in that case it is the
    page [index] renders and nothing is sent. *)
Theorem view_pages (req : flask_request) (t t' : trace) (p : page) :
  view req t = (Ok p, t') ->
  template p = "index.html" /\
  (result_var p = None <-> method req <> "POST") /\
  (method req <> "POST" -> p = index /\ t' = t).
Proof.
  intros Hrun.
  destruct (string_dec (method req) "POST") as [Hm | Hm].
  - assert (Hsome : template p = "index.html" /\ result_var p <> None).
    { destruct (form_get "statement" (form req)) as [s | ] eqn:Hf.
      - destruct (string_dec s "") as [-> | Hs].
        + rewrite (view_rejects_blank json_loads remote py_format req t Hm)
            in Hrun by now right.
          injection Hrun as <- _. now split.
        + rewrite (view_forwards json_loads remote py_format req s t Hm Hf Hs)
            in Hrun.
          destruct (detector s t) as [[r | e'] t'']; [ | discriminate ].
          injection Hrun as <- _. now split.
      - rewrite (view_rejects_blank json_loads remote py_format req t Hm)
          in Hrun by now left.
        injection Hrun as <- _. now split. }
    destruct Hsome as [Htemplate Hres].
    split; [ exact Htemplate | ]. split; [ | contradiction ].
    split; [ intros Hnone; contradiction | intros Hnot; contradiction ].
  - unfold emotion_detection_view in Hrun.
    pose proof Hm as Hneq. apply String.eqb_neq in Hneq. rewrite Hneq in Hrun.
    injection Hrun as <- <-.
    split; [ reflexivity | ]. split; [ | now split ].
    split; [ intros _; exact Hm | reflexivity ].
Qed.

End ViewAroundClient.

(** *** The test methods *)

Section TestMethods.

Variable json_loads : string -> result value.
Variable remote : request -> result response.

Local Abbreviation detector := (emotion_detector json_loads remote).
Local Abbreviation dominant_test := (Tests.dominant_test json_loads remote).

Lemma dominant_test_on_400 (statement expected : string) (t : trace)
    (resp : response) :
  remote (request_for statement) = Ok resp ->
  status_code resp = 400 ->
  fst (dominant_test statement expected t) = Failed.
Proof.
  intros Hr H400. unfold Tests.dominant_test.
  rewrite emotion_detector_run, Hr, H400. reflexivity.
Qed.

(** A test passes exactly when the client returns a result whose
    dominant emotion is the expected one. *)
Lemma dominant_test_passes (statement expected : string) (t : trace) :
  fst (dominant_test statement expected t) = Passed <->
  exists r, fst (detector statement t) = Ok r /\
            dominant_emotion r = Some expected.
Proof.
  unfold Tests.dominant_test.
  destruct (detector statement t) as [[r | e] t']; cbn [fst].
  - unfold assertEqual.
    destruct (dominant_emotion r) as [d | ] eqn:Hd.
    + destruct (String.eqb_spec d expected) as [-> | Hne]; split.
      * intros _. now exists r.
      * reflexivity.
      * discriminate.
      * intros (r' & [= <-] & Hd'). congruence.
    + split; [ discriminate | ].
      intros (r' & [= <-] & Hd'). congruence.
  - split; [ discriminate | intros (r' & [=] & _) ].
Qed.

(** A service that answers every request alike gives every statement
    the same outcome. *)
Lemma same_answer_same_outcome (reply0 : result response)
    (s1 s2 : string) (t1 t2 : trace) :
  (forall req, remote req = reply0) ->
  fst (detector s1 t1) = fst (detector s2 t2).
Proof.
  intros Hconst. rewrite !emotion_detector_run, !Hconst.
  destruct reply0 as [resp | e]; [ | reflexivity ].
  destruct (status_code resp =? 400); [ reflexivity | ].
  destruct (ok resp); [ | reflexivity ].
  destruct (json_body resp); reflexivity.
Qed.

(** X16. When the service answers every request with status 400, each
    of the five test methods ends in a failed assertion, not in an
    error: the client returns the all-[None] result and [None] is not the
    expected emotion. *)
Theorem tests_fail_on_bad_request (test : trace -> outcome * trace) (t : trace) :
  (forall req, exists resp, remote req = Ok resp /\ status_code resp = 400) ->
  In test (test_methods json_loads remote) ->
  fst (test t) = Failed.
Proof.
  intros H400 Hin.
  destruct Hin as [<- | [<- | [<- | [<- | [<- | []]]]]];
    unfold test_joy, test_anger, test_disgust, test_sadness, test_fear;
    match goal with
    | |- fst (Tests.dominant_test _ _ ?s ?e t) = Failed =>
        destruct (H400 (request_for s)) as (resp & Hr & Hs);
        exact (dominant_test_on_400 s e t resp Hr Hs)
    end.
Qed.

(** X17. A test method passes when the service gives its statement a
    usable reply in which the expected emotion exceeds the (numeric)
    score of every earlier key and is exceeded by no later key. *)
Theorem test_passes_on_first_maximum (statement expected : string)
    (t : trace) (resp : response) (body : value)
    (object : list (string * value)) (earlier later : list string) :
  remote (request_for statement) = Ok resp ->
  ok resp = true ->
  json_body resp = Some body ->
  emotion_results json_loads body = Ok (VDict object) ->
  emotion_keys = (earlier ++ expected :: later)%list ->
  (forall x, In x earlier ->
             is_number (default_score object x) = true /\
             py_gt (default_score object expected) (default_score object x)
             = Ok true) ->
  (forall x, In x later ->
             py_gt (default_score object x) (default_score object expected)
             = Ok false) ->
  fst (dominant_test statement expected t) = Passed.
Proof.
  intros Hr Hok Hb He Hkeys Hearlier Hlater.
  apply dominant_test_passes. exists (result_of object expected).
  split; [ | reflexivity ].
  exact (first_maximum_run json_loads remote statement t resp body object
           earlier later expected Hr Hok Hb He Hkeys Hearlier Hlater).
Qed.

(** X18. Against a service that answers every request alike, at most
    one of the five test methods passes: the five expect different
    emotions of what is then one and the same result. *)
Theorem canned_service_passes_one_test (reply0 : result response)
    (test1 test2 : trace -> outcome * trace) (t1 t2 : trace) :
  (forall req, remote req = reply0) ->
  In test1 (test_methods json_loads remote) ->
  In test2 (test_methods json_loads remote) ->
  fst (test1 t1) = Passed ->
  fst (test2 t2) = Passed ->
  test1 = test2.
Proof.
  intros Hconst Hin1 Hin2 Hp1 Hp2.
  assert (Hone : forall s1 e1 s2 e2,
             fst (dominant_test s1 e1 t1) = Passed ->
             fst (dominant_test s2 e2 t2) = Passed ->
             e1 = e2).
  { intros s1 e1 s2 e2 H1 H2.
    apply dominant_test_passes in H1. apply dominant_test_passes in H2.
    destruct H1 as (r1 & Hr1 & Hd1). destruct H2 as (r2 & Hr2 & Hd2).
    rewrite (same_answer_same_outcome reply0 s1 s2 t1 t2 Hconst) in Hr1.
    congruence. }
  destruct Hin1 as [<- | [<- | [<- | [<- | [<- | []]]]]];
    destruct Hin2 as [<- | [<- | [<- | [<- | [<- | []]]]]];
    try reflexivity;
    exfalso;
    unfold test_joy, test_anger, test_disgust, test_sadness, test_fear in Hp1, Hp2;
    pose proof (Hone _ _ _ _ Hp1 Hp2) as Habs; discriminate Habs.
Qed.

End TestMethods.

(** *** Which replies give a result *)

Section RepliesThatGiveAResult.

Variable json_loads : string -> result value.

(** The extraction stage succeeds only on an object in one of the two
    shapes. *)
Lemma emotion_results_Ok (body er : value) :
  emotion_results json_loads body = Ok er ->
  exists d,
    body = VDict d /\
    ((exists s, lookup "text" d = Some (VStr s) /\ json_loads s = Ok er) \/
     (lookup "text" d = None /\
      exists first others,
        lookup "emotionPredictions" d = Some (VList (VDict first :: others)) /\
        lookup "emotion" first = Some er)).
Proof.
  unfold emotion_results.
  destruct body as [ | | | | s0 | l0 | d ]; try discriminate.
  - (* a string *)
    cbn [py_contains rbind].
    destruct (is_substring "text" s0); cbn [py_getitem rbind]; [ discriminate | ].
    destruct (is_substring "emotionPredictions" s0); discriminate.
  - (* a list *)
    cbn [py_contains rbind].
    destruct (existsb _ l0); cbn [py_getitem rbind]; [ discriminate | ].
    destruct (existsb _ l0); discriminate.
  - (* an object *)
    intros Hrun. exists d. split; [ reflexivity | ].
    cbn [py_contains rbind] in Hrun. unfold has_key in Hrun.
    destruct (lookup "text" d) as [v | ] eqn:Ht.
    + left. cbn [py_getitem] in Hrun. rewrite Ht in Hrun. cbn [rbind] in Hrun.
      destruct v as [ | | | | s | | ]; cbn [loads] in Hrun; try discriminate.
      exists s. split; [ reflexivity | ].
      destruct (json_loads s) as [x | e]; [ congruence | ].
      destruct e; discriminate.
    + right. split; [ reflexivity | ].
      destruct (lookup "emotionPredictions" d) as [p | ] eqn:Hp;
        [ | discriminate ].
      cbn [py_get rbind] in Hrun. rewrite Hp in Hrun. cbn [rbind] in Hrun.
      destruct p as [ | [ | ] | z | f | s | [ | first others ] | [ | kv d' ] ];
        cbn in Hrun; try discriminate.
      * destruct (negb (z =? 0)); discriminate.
      * destruct f; discriminate.
      * destruct s as [ | c s ]; cbn in Hrun; [ discriminate | ].
        destruct (is_substring "emotion" (String c "")); discriminate.
      * destruct first as [ | | | | s | l | first ]; cbn in Hrun;
          try discriminate.
        -- destruct (is_substring "emotion" s); discriminate.
        -- destruct (existsb _ l); discriminate.
        -- unfold has_key in Hrun.
           destruct (lookup "emotion" first) as [x | ] eqn:He;
             cbn in Hrun; [ | discriminate ].
           exists first, others. split; congruence.
Qed.

(** X19. Any status outside 400..599 is read like a success: two replies
    with such statuses and the same decoded body give the same outcome
    and extend the trace by the same events. *)
Theorem other_statuses_are_read_alike
    (remote1 remote2 : request -> result response) (text : string)
    (t : trace) (resp1 resp2 : response) :
  remote1 (request_for text) = Ok resp1 ->
  remote2 (request_for text) = Ok resp2 ->
  ok resp1 = true ->
  ok resp2 = true ->
  json_body resp1 = json_body resp2 ->
  emotion_detector json_loads remote1 text t =
  emotion_detector json_loads remote2 text t.
Proof.
  intros Hr1 Hr2 Hok1 Hok2 Hb.
  rewrite !emotion_detector_run, Hr1, Hr2, Hok1, Hok2, Hb.
  destruct (Z.eqb_spec (status_code resp1) 400) as [H400 | _].
  { unfold ok in Hok1. rewrite H400 in Hok1. discriminate. }
  destruct (Z.eqb_spec (status_code resp2) 400) as [H400 | _].
  { unfold ok in Hok2. rewrite H400 in Hok2. discriminate. }
  reflexivity.
Qed.

(** X20. A result other than the all-[None] one is returned only for the
    two shapes: the decoded reply is an object that either has a [text]
    string decoding to an object, or has no [text] and a list
    [emotionPredictions] whose first element is an object with an object
    under [emotion]; the result is then built from that object. *)
Theorem result_only_from_two_shapes (remote : request -> result response)
    (text : string) (t t' : trace) (resp : response) (r : EmotionResult) :
  remote (request_for text) = Ok resp ->
  status_code resp <> 400 ->
  emotion_detector json_loads remote text t = (Ok r, t') ->
  exists d object k,
    json_body resp = Some (VDict d) /\
    r = result_of object k /\
    ((exists s, lookup "text" d = Some (VStr s) /\
                json_loads s = Ok (VDict object)) \/
     (lookup "text" d = None /\
      exists first others,
        lookup "emotionPredictions" d = Some (VList (VDict first :: others)) /\
        lookup "emotion" first = Some (VDict object))).
Proof.
  intros Hr Hs Hrun.
  destruct (detector_Ok json_loads remote text t t' resp r Hr Hs Hrun)
    as (_ & body & er & Hb & He & Hsc).
  destruct (emotion_results_Ok body er He) as (d & -> & Hshape).
  destruct er as [ | | | | | | object ]; try discriminate.
  rewrite scored_dict in Hsc.
  destruct (py_max emotion_keys (default_score object)) as [k | e];
    cbn [rbind] in Hsc; [ | discriminate ].
  injection Hsc as <-.
  exists d, object, k. split; [ exact Hb | ]. split; [ reflexivity | exact Hshape ].
Qed.

End RepliesThatGiveAResult.

(** *** The further properties at concrete replies *)

Local Ltac each_key H :=
  cbn in H;
  repeat (destruct H as [<- | H]; [ try split; reflexivity | ]);
  contradiction.

Lemma first_maximum_is_dominant_witness :
  fst (emotion_detector loads_empty_object
         (canned 200 (Some body_predictions)) "hi" []) =
  Ok (result_of predicted "joy").
Proof.
  apply (first_maximum_is_dominant loads_empty_object
           (canned 200 (Some body_predictions)) "hi" []
           (reply 200 body_predictions) body_predictions predicted
           ["anger"; "disgust"; "fear"] ["sadness"] "joy");
    try reflexivity.
  - intros x Hx. each_key Hx.
  - intros x Hx. each_key Hx.
Defined.

Lemma numeric_scores_always_return_witness :
  exists d,
    In d emotion_keys /\
    fst (emotion_detector loads_empty_object
           (canned 200 (Some body_predictions)) "hi" []) =
    Ok (result_of predicted d).
Proof.
  apply (numeric_scores_always_return loads_empty_object
           (canned 200 (Some body_predictions)) "hi" []
           (reply 200 body_predictions) body_predictions predicted);
    try reflexivity.
  intros x Hx. each_key Hx.
Defined.

Lemma nan_is_dominant_only_first_witness :
  ((forall x, In x emotion_keys ->
              is_number (default_score nan_first x) = true) ->
   is_nan (default_score nan_first "anger") = true ->
   fst (emotion_detector loads_empty_object
          (canned 200 (Some (predictions_of nan_first))) "hi" []) =
   Ok (result_of nan_first "anger")) /\
  (forall d,
      fst (emotion_detector loads_empty_object
             (canned 200 (Some (predictions_of nan_first))) "hi" []) =
      Ok (result_of nan_first d) ->
      is_nan (default_score nan_first d) = true ->
      d = "anger").
Proof.
  apply (nan_is_dominant_only_first loads_empty_object
           (canned 200 (Some (predictions_of nan_first))) "hi" []
           (reply 200 (predictions_of nan_first)) (predictions_of nan_first)
           nan_first);
    reflexivity.
Defined.

Lemma scores_share_a_family_witness :
  exists c, forall k, In k emotion_keys ->
                      family_of (score result_predictions k) = Some c.
Proof.
  apply (scores_share_a_family loads_empty_object
           (canned 200 (Some body_predictions)) "hi" []
           (trace_of_run body_predictions) (reply 200 body_predictions)
           result_predictions).
  - reflexivity.
  - discriminate.
  - reflexivity.
Defined.

Lemma decoded_reply_exceptions_witness :
  ValueError msg_decode <> JSONDecodeError /\
  (from_reply (ValueError msg_decode) = true \/
   exists d s,
     body_garbled = VDict d /\ lookup "text" d = Some (VStr s) /\
     loads_empty_object s = Raise (ValueError msg_decode)).
Proof.
  apply (decoded_reply_exceptions loads_empty_object
           (canned 200 (Some body_garbled)) "hi" []
           (reply 200 body_garbled) body_garbled (ValueError msg_decode));
    reflexivity.
Defined.

Lemma malformed_messages_witness :
  fst (emotion_detector loads_empty_object
         (canned 200 (Some body_garbled)) "hi" []) =
  Raise (ValueError msg_decode) <->
  (msg_decode = msg_decode /\
   exists s, field "text" body_garbled = Some (VStr s) /\
             loads_empty_object s = Raise JSONDecodeError) \/
  (exists s, field "text" body_garbled = Some (VStr s) /\
             loads_empty_object s = Raise (ValueError msg_decode)) \/
  (msg_decode = msg_predictions /\
   no_field "text" body_garbled /\ predictions_unusable body_garbled) \/
  (msg_decode = msg_format /\ neither_field body_garbled).
Proof.
  apply (malformed_messages loads_empty_object
           (canned 200 (Some body_garbled)) "hi" []
           (reply 200 body_garbled) body_garbled msg_decode);
    reflexivity.
Defined.

Lemma nested_text_is_decoded_witness :
  fst (emotion_detector loads_object
         (canned 200 (Some body_text_joyful)) "hi" []) =
  scored (VDict joyful).
Proof.
  apply (nested_text_is_decoded loads_object
           (canned 200 (Some body_text_joyful)) "hi" []
           (reply 200 body_text_joyful)
           [("emotionPredictions", VList []); ("text", VStr joyful_text)]
           joyful_text (VDict joyful));
    reflexivity.
Defined.

Lemma first_prediction_is_used_witness :
  fst (emotion_detector loads_empty_object
         (canned 200 (Some body_two_predictions)) "hi" []) =
  scored (VDict joyful).
Proof.
  apply (first_prediction_is_used loads_empty_object
           (canned 200 (Some body_two_predictions)) "hi" []
           (reply 200 body_two_predictions)
           [("emotionPredictions",
             VList [VDict [("emotion", VDict joyful)];
                    VDict [("emotion", VDict [("sadness", one)])]])]
           [("emotion", VDict joyful)]
           [VDict [("emotion", VDict [("sadness", one)])]]
           (VDict joyful));
    reflexivity.
Defined.

Lemma emotion_must_be_an_object_witness :
  fst (emotion_detector loads_object
         (canned 200 (Some body_text_list)) "hi" []) =
  Raise AttributeError.
Proof.
  apply (emotion_must_be_an_object loads_object
           (canned 200 (Some body_text_list)) "hi" []
           (reply 200 body_text_list) body_text_list (VList []));
    try reflexivity.
  discriminate.
Defined.

Lemma other_keys_are_ignored_witness :
  fst (emotion_detector loads_empty_object
         (canned 200 (Some (predictions_of joyful))) "hi" []) =
  fst (emotion_detector loads_empty_object
         (canned 200 (Some (predictions_of joyful_and_more))) "hi" []).
Proof.
  apply (other_keys_are_ignored loads_empty_object
           (canned 200 (Some (predictions_of joyful)))
           (canned 200 (Some (predictions_of joyful_and_more))) "hi" [] []
           (reply 200 (predictions_of joyful))
           (reply 200 (predictions_of joyful_and_more))
           (predictions_of joyful) (predictions_of joyful_and_more)
           joyful joyful_and_more);
    try reflexivity.
  intros k Hk. each_key Hk.
Defined.

Lemma invalid_text_exactly_on_400_witness :
  fst (emotion_detection_view loads_empty_object (canned 400 None) show
         (post_form "hi") []) =
  Ok (message_page "Invalid text! Please try again!") <->
  status_code {| status_code := 400; json_body := None |} = 400.
Proof.
  apply (invalid_text_exactly_on_400 loads_empty_object (canned 400 None) show
           (post_form "hi") "hi" [] {| status_code := 400; json_body := None |});
    try reflexivity.
  discriminate.
Defined.

Lemma view_pages_witness :
  template index = "index.html" /\
  (result_var index = None <-> "GET" <> "POST") /\
  ("GET" <> "POST" -> index = index /\ @nil event = []).
Proof.
  apply (view_pages loads_empty_object (canned 200 (Some body_predictions)) show
           {| method := "GET"; form := [] |} [] [] index).
  reflexivity.
Defined.

Lemma tests_fail_on_bad_request_witness :
  fst (test_joy loads_empty_object (canned 400 None) []) = Failed.
Proof.
  apply (tests_fail_on_bad_request loads_empty_object (canned 400 None)
           (test_joy loads_empty_object (canned 400 None)) []).
  - intros req. exists {| status_code := 400; json_body := None |}.
    split; reflexivity.
  - left. reflexivity.
Defined.

Lemma test_passes_on_first_maximum_witness :
  fst (test_joy loads_empty_object (canned 200 (Some body_predictions)) []) =
  Passed.
Proof.
  apply (test_passes_on_first_maximum loads_empty_object
           (canned 200 (Some body_predictions))
           "I am glad this happened" "joy" []
           (reply 200 body_predictions) body_predictions predicted
           ["anger"; "disgust"; "fear"] ["sadness"]);
    try reflexivity.
  - intros x Hx. each_key Hx.
  - intros x Hx. each_key Hx.
Defined.

Lemma canned_service_passes_one_test_witness :
  test_joy loads_empty_object (canned 200 (Some body_predictions)) =
  test_joy loads_empty_object (canned 200 (Some body_predictions)).
Proof.
  apply (canned_service_passes_one_test loads_empty_object
           (canned 200 (Some body_predictions))
           (Ok (reply 200 body_predictions))
           (test_joy loads_empty_object (canned 200 (Some body_predictions)))
           (test_joy loads_empty_object (canned 200 (Some body_predictions)))
           [] (trace_of_run body_predictions)).
  - intros req. reflexivity.
  - left. reflexivity.
  - left. reflexivity.
  - reflexivity.
  - reflexivity.
Defined.

Lemma other_statuses_are_read_alike_witness :
  emotion_detector loads_empty_object
    (canned 200 (Some body_predictions)) "hi" [] =
  emotion_detector loads_empty_object
    (canned 302 (Some body_predictions)) "hi" [].
Proof.
  apply (other_statuses_are_read_alike loads_empty_object
           (canned 200 (Some body_predictions))
           (canned 302 (Some body_predictions)) "hi" []
           (reply 200 body_predictions) (reply 302 body_predictions));
    reflexivity.
Defined.

Lemma result_only_from_two_shapes_witness :
  exists d object k,
    json_body (reply 200 body_predictions) = Some (VDict d) /\
    result_predictions = result_of object k /\
    ((exists s, lookup "text" d = Some (VStr s) /\
                loads_empty_object s = Ok (VDict object)) \/
     (lookup "text" d = None /\
      exists first others,
        lookup "emotionPredictions" d = Some (VList (VDict first :: others)) /\
        lookup "emotion" first = Some (VDict object))).
Proof.
  apply (result_only_from_two_shapes loads_empty_object
           (canned 200 (Some body_predictions)) "hi" []
           (trace_of_run body_predictions) (reply 200 body_predictions)
           result_predictions).
  - reflexivity.
  - discriminate.
  - reflexivity.
Defined.
